(** * Client-certificate authentication annotations (package authtls)

    A shallow embedding of
    [internal/ingress/annotations/authtls/main.go]: the four validation
    patterns, the [Config] record with its [Equal] method, and [Parse].

    Go strings are byte strings ([string] of [ascii]); Go's [int] is [Z];
    a Go result pair [(v, err)] is a pair whose second component is
    [option error], [None] standing for the nil error. *)

From Stdlib Require Import ZArith Ascii String Bool Lia.
From stdpp Require Import base option gmap strings.

Local Open Scope string_scope.

(** ** Regular expressions (package regexp, as far as the patterns need) *)

Module regexp.

(** The syntax the four patterns of this package use.  [BeginText] is
    [^], [NotChr c] is the negated class [[^c]]. *)
Inductive regex : Type :=
| Fail
| Eps
| BeginText
| Chr (c : ascii)
| NotChr (c : ascii)
| Cat (a b : regex)
| Alt (a b : regex)
| Star (a : regex).

Definition Plus (a : regex) : regex := Cat a (Star a).
Definition Opt (a : regex) : regex := Alt a Eps.

(** A literal run of bytes. *)
Fixpoint Lit (s : string) : regex :=
  match s with
  | EmptyString => Eps
  | String c s' => Cat (Chr c) (Lit s')
  end.

(** [nullable bot r]: [r] matches the empty word; [bot] tells whether
    the current position is the beginning of the text. *)
Fixpoint nullable (bot : bool) (r : regex) : bool :=
  match r with
  | Fail => false
  | Eps => true
  | BeginText => bot
  | Chr _ => false
  | NotChr _ => false
  | Cat a b => nullable bot a && nullable bot b
  | Alt a b => nullable bot a || nullable bot b
  | Star _ => true
  end.

(** Brzozowski derivative: what is left of [r] once byte [c] is read
    at a position whose beginning-of-text status is [bot]. *)
Fixpoint deriv (bot : bool) (c : ascii) (r : regex) : regex :=
  match r with
  | Fail => Fail
  | Eps => Fail
  | BeginText => Fail
  | Chr d => if Ascii.eqb c d then Eps else Fail
  | NotChr d => if Ascii.eqb c d then Fail else Eps
  | Cat a b =>
      Alt (Cat (deriv bot c a) b)
          (if nullable bot a then deriv bot c b else Fail)
  | Alt a b => Alt (deriv bot c a) (deriv bot c b)
  | Star a => Cat (deriv bot c a) (Star a)
  end.

(** Some prefix of [s] matches [r]. *)
Fixpoint matchHere (bot : bool) (r : regex) (s : string) : bool :=
  nullable bot r ||
  match s with
  | EmptyString => false
  | String c s' => matchHere false (deriv bot c r) s'
  end.

(** Some substring of [s] starting at or after the current position
    matches [r]. *)
Fixpoint matchFrom (bot : bool) (r : regex) (s : string) : bool :=
  matchHere bot r s ||
  match s with
  | EmptyString => false
  | String _ s' => matchFrom false r s'
  end.

(** [Regexp.MatchString]: the text contains a match of the pattern
    (the search is not anchored unless the pattern says so). *)
Definition MatchString (r : regex) (s : string) : bool := matchFrom true r s.

(** The words of a pattern, by position. *)
Inductive matches : bool -> regex -> string -> Prop :=
| MEps bot : matches bot Eps ""
| MBeginText : matches true BeginText ""
| MChr bot c : matches bot (Chr c) (String c "")
| MNotChr bot c d : c <> d -> matches bot (NotChr d) (String c "")
| MCatE bot a b w : matches bot a "" -> matches bot b w -> matches bot (Cat a b) w
| MCatS bot a b c w1 w2 :
    matches bot a (String c w1) -> matches false b w2 ->
    matches bot (Cat a b) (String c (w1 ++ w2))
| MAltL bot a b w : matches bot a w -> matches bot (Alt a b) w
| MAltR bot a b w : matches bot b w -> matches bot (Alt a b) w
| MStar0 bot a : matches bot (Star a) ""
| MStarS bot a c w1 w2 :
    matches bot a (String c w1) -> matches false (Star a) w2 ->
    matches bot (Star a) (String c (w1 ++ w2)).

End regexp.

(** ** strings.EqualFold *)

Module strings.

(** One step of [EqualFold] on two bytes below [utf8.RuneSelf]: equal,
    or an upper-case letter and its lower-case form.  Bytes from 0x80
    on never fold to an ASCII letter other than [k] and [s], so on the
    literals this package compares with the byte loop is the whole
    function. *)
Definition foldByte (sr tr : ascii) : bool :=
  let a := N_of_ascii sr in
  let b := N_of_ascii tr in
  if (a =? b)%N then true
  else
    let '(lo, hi) := if (b <? a)%N then (b, a) else (a, b) in
    (65 <=? lo)%N && (lo <=? 90)%N && (hi =? lo + 32)%N.

Fixpoint EqualFold (s t : string) : bool :=
  match s, t with
  | EmptyString, EmptyString => true
  | String sr s', String tr t' => foldByte sr tr && EqualFold s' t'
  | _, _ => false
  end.

End strings.

(** ** Errors (packages errors and ing_errors) *)

Inductive error : Type :=
| errorString (msg : string)
| withMessage (cause : error) (msg : string)
| LocationDenied (Reason : error)
| InvalidConfiguration (Name : string) (Reason : string).

(** [err.Error()] *)
Fixpoint Error (e : error) : string :=
  match e with
  | errorString msg => msg
  | withMessage cause msg => msg ++ ": " ++ Error cause
  | LocationDenied Reason => Error Reason
  | InvalidConfiguration Name Reason => Name ++ ": " ++ Reason
  end.

(** [errors.Wrap] on a non-nil error. *)
Definition Wrap (err : error) (msg : string) : error := withMessage err msg.

(** Modelled from the spec: [ing_errors.NewLocationDenied] is declared
    outside this file; it builds an error of the location-denied kind
    that carries the given reason. *)
Definition NewLocationDenied (reason : string) : error :=
  LocationDenied (errorString reason).

(** Modelled from the spec: [ing_errors.NewInvalidAnnotationConfiguration]
    is declared outside this file; it builds an error of the
    invalid-annotation-configuration kind naming the annotation and the
    unmet requirement. *)
Definition NewInvalidAnnotationConfiguration (name reason : string) : error :=
  InvalidConfiguration name reason.

Definition IsLocationDenied (e : error) : bool :=
  match e with LocationDenied _ => true | _ => false end.

Definition IsInvalidConfiguration (e : error) : bool :=
  match e with InvalidConfiguration _ _ => true | _ => false end.

(** ** Constants and patterns *)

Definition defaultAuthTLSDepth : Z := 1.
Definition defaultAuthVerifyClient : string := "on".
Definition defaultOCSP : string := "off".
Definition defaultOCSPCache : string := "off".

Import regexp.

(** [on|off|optional|optional_no_ca] *)
Definition authVerifyClientRegex : regex :=
  Alt (Lit "on") (Alt (Lit "off") (Alt (Lit "optional") (Lit "optional_no_ca"))).

(** [on|off|leaf] *)
Definition authOCSPRegex : regex :=
  Alt (Lit "on") (Alt (Lit "off") (Lit "leaf")).

(** [off|shared:[^\:]+:[^\:]+] *)
Definition authOCSPCacheRegex : regex :=
  Alt (Lit "off")
      (Cat (Lit "shared:")
           (Cat (Plus (NotChr ":")) (Cat (Chr ":") (Plus (NotChr ":"))))).

(** [^http?://] *)
Definition httpOnlyRegex : regex :=
  Cat BeginText (Cat (Lit "htt") (Cat (Opt (Chr "p")) (Lit "://"))).

(** ** The texts the patterns accept *)

(** [contains w s]: the text [s] has [w] somewhere in it. *)
Definition contains (w s : string) : Prop := exists pre post, s = pre ++ w ++ post.

(** No byte of [s] is [d]. *)
Fixpoint freeOf (d : ascii) (s : string) : bool :=
  match s with
  | EmptyString => true
  | String c s' => negb (Ascii.eqb c d) && freeOf d s'
  end.

(** A word of [[^\:]+]: at least one byte, none of them a colon. *)
Definition segment (s : string) : Prop := s <> "" /\ freeOf ":" s = true.

(** A word of [authOCSPCacheRegex]. *)
Definition cacheWord (w : string) : Prop :=
  w = "off" \/
  exists a b, w = "shared:" ++ a ++ ":" ++ b /\ segment a /\ segment b.

(** ** The configuration record, [Equal] and [Parse] *)

Section Authtls.

(** [resolver.AuthSSLCert] is declared in package resolver: its type, its
    zero value and its [Equal] method are taken as given. *)
Variable AuthSSLCertT : Type.
Variable AuthSSLCert_zero : AuthSSLCertT.
Variable AuthSSLCert_Equal : AuthSSLCertT -> AuthSSLCertT -> bool.

(** Config contains the AuthSSLCert used for mutual authentication and
    the configured ValidationDepth. *)
Record Config : Type := mkConfig {
  AuthSSLCert : AuthSSLCertT;
  VerifyClient : string;
  ValidationDepth : Z;
  ErrorPage : string;
  PassCertToUpstream : bool;
  OCSP : string;
  OCSPResponder : string;
  OCSPCache : string;
  AuthTLSError : string
}.

(** [Config{}] *)
Definition Config_zero : Config :=
  mkConfig AuthSSLCert_zero "" 0 "" false "" "" "" "".

Definition set_AuthSSLCert (v : AuthSSLCertT) (c : Config) : Config :=
  mkConfig v (VerifyClient c) (ValidationDepth c) (ErrorPage c)
    (PassCertToUpstream c) (OCSP c) (OCSPResponder c) (OCSPCache c) (AuthTLSError c).
Definition set_VerifyClient (v : string) (c : Config) : Config :=
  mkConfig (AuthSSLCert c) v (ValidationDepth c) (ErrorPage c)
    (PassCertToUpstream c) (OCSP c) (OCSPResponder c) (OCSPCache c) (AuthTLSError c).
Definition set_ValidationDepth (v : Z) (c : Config) : Config :=
  mkConfig (AuthSSLCert c) (VerifyClient c) v (ErrorPage c)
    (PassCertToUpstream c) (OCSP c) (OCSPResponder c) (OCSPCache c) (AuthTLSError c).
Definition set_ErrorPage (v : string) (c : Config) : Config :=
  mkConfig (AuthSSLCert c) (VerifyClient c) (ValidationDepth c) v
    (PassCertToUpstream c) (OCSP c) (OCSPResponder c) (OCSPCache c) (AuthTLSError c).
Definition set_PassCertToUpstream (v : bool) (c : Config) : Config :=
  mkConfig (AuthSSLCert c) (VerifyClient c) (ValidationDepth c) (ErrorPage c)
    v (OCSP c) (OCSPResponder c) (OCSPCache c) (AuthTLSError c).
Definition set_OCSP (v : string) (c : Config) : Config :=
  mkConfig (AuthSSLCert c) (VerifyClient c) (ValidationDepth c) (ErrorPage c)
    (PassCertToUpstream c) v (OCSPResponder c) (OCSPCache c) (AuthTLSError c).
Definition set_OCSPResponder (v : string) (c : Config) : Config :=
  mkConfig (AuthSSLCert c) (VerifyClient c) (ValidationDepth c) (ErrorPage c)
    (PassCertToUpstream c) (OCSP c) v (OCSPCache c) (AuthTLSError c).
Definition set_OCSPCache (v : string) (c : Config) : Config :=
  mkConfig (AuthSSLCert c) (VerifyClient c) (ValidationDepth c) (ErrorPage c)
    (PassCertToUpstream c) (OCSP c) (OCSPResponder c) v (AuthTLSError c).
Definition set_AuthTLSError (v : string) (c : Config) : Config :=
  mkConfig (AuthSSLCert c) (VerifyClient c) (ValidationDepth c) (ErrorPage c)
    (PassCertToUpstream c) (OCSP c) (OCSPResponder c) (OCSPCache c) v.

(** *** Equal

    [Equal] takes two [*Config]: a pointer is [None] (nil) or the address
    of a [Config] in the store.  The result is [None] where the Go code
    would dereference an address that holds nothing. *)
Definition loc : Type := positive.

Definition Equal (h : gmap positive Config) (assl1 assl2 : option loc) : option bool :=
  if decide (assl1 = assl2) then Some true
  else
    match assl1, assl2 with
    | None, _ | _, None => Some false
    | Some l1, Some l2 =>
        match h !! l1, h !! l2 with
        | Some c1, Some c2 =>
            if negb (AuthSSLCert_Equal (AuthSSLCert c1) (AuthSSLCert c2)) then Some false
            else if negb (String.eqb (VerifyClient c1) (VerifyClient c2)) then Some false
            else if negb (Z.eqb (ValidationDepth c1) (ValidationDepth c2)) then Some false
            else if negb (String.eqb (ErrorPage c1) (ErrorPage c2)) then Some false
            else if negb (Bool.eqb (PassCertToUpstream c1) (PassCertToUpstream c2)) then Some false
            else if negb (String.eqb (OCSP c1) (OCSP c2)) then Some false
            else if negb (String.eqb (OCSPResponder c1) (OCSPResponder c2)) then Some false
            else if negb (String.eqb (OCSPCache c1) (OCSPCache c2)) then Some false
            else Some true
        | _, _ => None
        end
    end.

(** Field-wise agreement of two configurations, in the words of the data
    model: the certificate bundle by its own equality, then VerifyClient,
    ValidationDepth, ErrorPage, PassCertToUpstream, OCSP, OCSPResponder
    and OCSPCache. *)
Definition fieldsEqual (c1 c2 : Config) : Prop :=
  AuthSSLCert_Equal (AuthSSLCert c1) (AuthSSLCert c2) = true /\
  VerifyClient c1 = VerifyClient c2 /\
  ValidationDepth c1 = ValidationDepth c2 /\
  ErrorPage c1 = ErrorPage c2 /\
  PassCertToUpstream c1 = PassCertToUpstream c2 /\
  OCSP c1 = OCSP c2 /\
  OCSPResponder c1 = OCSPResponder c2 /\
  OCSPCache c1 = OCSPCache c2.

(** A pointer a Go program can hold: nil, or the address of a value. *)
Definition valid (h : gmap positive Config) (p : option loc) : Prop :=
  match p with
  | None => True
  | Some l => is_Some (h !! l)
  end.

(** *** Parse

    The collaborators of [Parse]: the typed annotation accessors of
    package parser, [k8s.ParseNameNS] and the resolver held by the
    parser value.  [GetAuthCertificate] returns a [*AuthSSLCert], nil
    being [None]. *)
Variable Ingress : Type.
Variable GetStringAnnotation : string -> Ingress -> string * option error.
Variable GetIntAnnotation : string -> Ingress -> Z * option error.
Variable GetBoolAnnotation : string -> Ingress -> bool * option error.
Variable ParseNameNS : string -> (string * string) * option error.
Variable GetAuthCertificate : string -> option AuthSSLCertT * option error.

(** What a call of [Parse] does: it returns a value and an error, or
    panics on a nil dereference.  The returned value is nil ([None]) or a
    pointer to a [Config] allocated by this call, given by its content. *)
Inductive outcome : Type :=
| Panic
| Return (v : option Config) (err : option error).

Definition Parse (ing : Ingress) : outcome :=
  let config := Config_zero in
  let '(tlsauthsecret, err) := GetStringAnnotation "auth-tls-secret" ing in
  match err with
  | Some e => Return (Some Config_zero) (Some e)
  | None =>
  let '(_, err) := ParseNameNS tlsauthsecret in
  match err with
  | Some e => Return (Some Config_zero) (Some (NewLocationDenied (Error e)))
  | None =>
  let '(authCert, err) := GetAuthCertificate tlsauthsecret in
  match err with
  | Some err =>
      let e := Wrap err "error obtaining certificate" in
      Return (Some Config_zero) (Some (LocationDenied e))
  | None =>
  match authCert with
  | None => Panic
  | Some cert =>
  let config := set_AuthSSLCert cert config in

  let '(v, err) := GetStringAnnotation "auth-tls-verify-client" ing in
  let config := set_VerifyClient v config in
  let config :=
    if bool_decide (err <> None) || negb (MatchString authVerifyClientRegex (VerifyClient config))
    then set_VerifyClient defaultAuthVerifyClient config else config in

  let '(v, err) := GetIntAnnotation "auth-tls-verify-depth" ing in
  let config := set_ValidationDepth v config in
  let config :=
    if bool_decide (err <> None) || (ValidationDepth config =? 0)%Z
    then set_ValidationDepth defaultAuthTLSDepth config else config in

  let '(v, err) := GetStringAnnotation "auth-tls-error-page" ing in
  let config := set_ErrorPage v config in
  let config :=
    if bool_decide (err <> None) then set_ErrorPage "" config else config in

  let '(v, err) := GetBoolAnnotation "auth-tls-pass-certificate-to-upstream" ing in
  let config := set_PassCertToUpstream v config in
  let config :=
    if bool_decide (err <> None) then set_PassCertToUpstream false config else config in

  let '(v, err) := GetStringAnnotation "auth-tls-ocsp" ing in
  let config := set_OCSP v config in
  let config :=
    if bool_decide (err <> None) || negb (MatchString authOCSPRegex (OCSP config))
    then set_OCSP defaultOCSP config else config in

  (* OCSP requires auth-tls-verify-client to be set *)
  if strings.EqualFold (OCSP config) "on" && negb (strings.EqualFold (VerifyClient config) "on")
  then Return None
         (Some (NewInvalidAnnotationConfiguration "auth-tls-ocsp"
                  "requires auth-tls-verify-client to be set on"))
  else

  let '(v, err) := GetStringAnnotation "auth-tls-ocsp-responder" ing in
  let config := set_OCSPResponder v config in
  let config :=
    if bool_decide (err <> None) || negb (MatchString httpOnlyRegex (OCSPResponder config))
    then set_OCSPResponder "" config else config in

  let '(v, err) := GetStringAnnotation "auth-tls-ocsp-cache" ing in
  let config := set_OCSPCache v config in
  let config :=
    if bool_decide (err <> None) || negb (MatchString authOCSPCacheRegex (OCSPCache config))
    then set_OCSPCache defaultOCSPCache config else config in

  Return (Some config) None
  end end end end.

(** The value each optional field holds once its own lines of [Parse]
    have run (the read, then the fall-back), as a function of the rule. *)
Definition resolvedVerifyClient (ing : Ingress) : string :=
  let '(v, err) := GetStringAnnotation "auth-tls-verify-client" ing in
  if bool_decide (err <> None) || negb (MatchString authVerifyClientRegex v)
  then defaultAuthVerifyClient else v.

Definition resolvedValidationDepth (ing : Ingress) : Z :=
  let '(v, err) := GetIntAnnotation "auth-tls-verify-depth" ing in
  if bool_decide (err <> None) || (v =? 0)%Z then defaultAuthTLSDepth else v.

Definition resolvedErrorPage (ing : Ingress) : string :=
  let '(v, err) := GetStringAnnotation "auth-tls-error-page" ing in
  if bool_decide (err <> None) then "" else v.

Definition resolvedPassCertToUpstream (ing : Ingress) : bool :=
  let '(v, err) := GetBoolAnnotation "auth-tls-pass-certificate-to-upstream" ing in
  if bool_decide (err <> None) then false else v.

Definition resolvedOCSP (ing : Ingress) : string :=
  let '(v, err) := GetStringAnnotation "auth-tls-ocsp" ing in
  if bool_decide (err <> None) || negb (MatchString authOCSPRegex v)
  then defaultOCSP else v.

Definition resolvedOCSPResponder (ing : Ingress) : string :=
  let '(v, err) := GetStringAnnotation "auth-tls-ocsp-responder" ing in
  if bool_decide (err <> None) || negb (MatchString httpOnlyRegex v)
  then "" else v.

Definition resolvedOCSPCache (ing : Ingress) : string :=
  let '(v, err) := GetStringAnnotation "auth-tls-ocsp-cache" ing in
  if bool_decide (err <> None) || negb (MatchString authOCSPCacheRegex v)
  then defaultOCSPCache else v.

(** The three steps on the secret reference succeed and yield [cert]. *)
Definition certificateResolved (ing : Ingress) (cert : AuthSSLCertT) : Prop :=
  exists tlsauthsecret ns,
    GetStringAnnotation "auth-tls-secret" ing = (tlsauthsecret, None) /\
    ParseNameNS tlsauthsecret = (ns, None) /\
    GetAuthCertificate tlsauthsecret = (Some cert, None).

End Authtls.

Arguments mkConfig {AuthSSLCertT}.
Arguments AuthSSLCert {AuthSSLCertT} c.
Arguments VerifyClient {AuthSSLCertT} c.
Arguments ValidationDepth {AuthSSLCertT} c.
Arguments ErrorPage {AuthSSLCertT} c.
Arguments PassCertToUpstream {AuthSSLCertT} c.
Arguments OCSP {AuthSSLCertT} c.
Arguments OCSPResponder {AuthSSLCertT} c.
Arguments OCSPCache {AuthSSLCertT} c.
Arguments AuthTLSError {AuthSSLCertT} c.
Arguments set_AuthSSLCert {AuthSSLCertT} v c.
Arguments set_VerifyClient {AuthSSLCertT} v c.
Arguments set_ValidationDepth {AuthSSLCertT} v c.
Arguments set_ErrorPage {AuthSSLCertT} v c.
Arguments set_PassCertToUpstream {AuthSSLCertT} v c.
Arguments set_OCSP {AuthSSLCertT} v c.
Arguments set_OCSPResponder {AuthSSLCertT} v c.
Arguments set_OCSPCache {AuthSSLCertT} v c.
Arguments set_AuthTLSError {AuthSSLCertT} v c.
Arguments valid {AuthSSLCertT} h p.
Arguments Panic {AuthSSLCertT}.
Arguments Return {AuthSSLCertT} v err.
Arguments Config_zero {AuthSSLCertT} AuthSSLCert_zero.
Arguments Equal {AuthSSLCertT} AuthSSLCert_Equal h assl1 assl2.
Arguments fieldsEqual {AuthSSLCertT} AuthSSLCert_Equal c1 c2.
Arguments Parse {AuthSSLCertT} AuthSSLCert_zero {Ingress}
  GetStringAnnotation GetIntAnnotation GetBoolAnnotation
  ParseNameNS GetAuthCertificate ing.
Arguments resolvedVerifyClient {Ingress} GetStringAnnotation ing.
Arguments resolvedValidationDepth {Ingress} GetIntAnnotation ing.
Arguments resolvedErrorPage {Ingress} GetStringAnnotation ing.
Arguments resolvedPassCertToUpstream {Ingress} GetBoolAnnotation ing.
Arguments resolvedOCSP {Ingress} GetStringAnnotation ing.
Arguments resolvedOCSPResponder {Ingress} GetStringAnnotation ing.
Arguments resolvedOCSPCache {Ingress} GetStringAnnotation ing.
Arguments certificateResolved {AuthSSLCertT Ingress}
  GetStringAnnotation ParseNameNS GetAuthCertificate ing cert.

(** ** Stand-ins for the collaborators

    A small annotation bag, reference parser and resolver, used to run
    [Parse] and [Equal] on concrete rules. *)

Module mock.

(** Modelled from the spec: the certificate bundle of package resolver is
    opaque material compared by its own structural equality; here it is
    the name of the secret and the hash of its content. *)
Record Cert : Type := mkCert { Secret : string; CASHA : string }.

Definition Cert_zero : Cert := mkCert "" "".

Definition Cert_Equal (a b : Cert) : bool :=
  String.eqb (Secret a) (Secret b) && String.eqb (CASHA a) (CASHA b).

Definition ErrMissingAnnotations : error :=
  errorString "ingress rule without annotations".

Definition ErrInvalidContent (name : string) : error :=
  errorString ("the annotation " ++ name ++ " does not contain a valid value").

(** Modelled from the spec: the accessors of package parser are generic
    typed lookups in the rule's annotation bag, failing when the key is
    absent or the value has the wrong type.  The rule is its bag. *)
Definition GetStringAnnotation (name : string) (ing : gmap string string)
  : string * option error :=
  match ing !! name with
  | Some v => (v, None)
  | None => ("", Some ErrMissingAnnotations)
  end.

Definition digit (c : ascii) : option Z :=
  let n := Z.of_N (N_of_ascii c) in
  if (48 <=? n)%Z && (n <=? 57)%Z then Some (n - 48)%Z else None.

Fixpoint digits (acc : Z) (s : string) : option Z :=
  match s with
  | EmptyString => Some acc
  | String c s' =>
      match digit c with
      | Some d => digits (10 * acc + d)%Z s'
      | None => None
      end
  end.

Definition parseInt (s : string) : option Z :=
  match s with
  | EmptyString => None
  | String "-"%char EmptyString => None
  | String "-"%char s' => Z.opp <$> digits 0 s'
  | _ => digits 0 s
  end.

Definition GetIntAnnotation (name : string) (ing : gmap string string)
  : Z * option error :=
  match ing !! name with
  | Some v =>
      match parseInt v with
      | Some n => (n, None)
      | None => (0%Z, Some (ErrInvalidContent name))
      end
  | None => (0%Z, Some ErrMissingAnnotations)
  end.

Definition GetBoolAnnotation (name : string) (ing : gmap string string)
  : bool * option error :=
  match ing !! name with
  | Some v =>
      if String.eqb v "true" then (true, None)
      else if String.eqb v "false" then (false, None)
      else (false, Some (ErrInvalidContent name))
  | None => (false, Some ErrMissingAnnotations)
  end.

(** Modelled from the spec: [k8s.ParseNameNS] splits a namespace/name
    token and fails on any other shape. *)
Fixpoint splitSlash (s : string) : list string :=
  match s with
  | EmptyString => [EmptyString]
  | String c s' =>
      if Ascii.eqb c "/" then EmptyString :: splitSlash s'
      else
        match splitSlash s' with
        | [] => [String c EmptyString]
        | w :: ws => String c w :: ws
        end
  end.

Definition ParseNameNS (input : string) : (string * string) * option error :=
  match splitSlash input with
  | [ns; name] => ((ns, name), None)
  | _ => (("", ""), Some (errorString ("invalid format (namespace/name) found in " ++ input)))
  end.

(** Modelled from the spec: the resolver looks the reference up in the
    secrets it knows and fails when there is none. *)
Definition GetAuthCertificate (secrets : gmap string Cert) (name : string)
  : option Cert * option error :=
  match secrets !! name with
  | Some cert => (Some cert, None)
  | None => (None, Some (errorString ("secret " ++ name ++ " does not exist")))
  end.

(** [Parse] with these collaborators. *)
Definition Parse (secrets : gmap string Cert) (ing : gmap string string)
  : outcome Cert :=
  Parse Cert_zero
    GetStringAnnotation GetIntAnnotation GetBoolAnnotation
    ParseNameNS (GetAuthCertificate secrets) ing.

Definition Equal (h : gmap positive (Config Cert)) (p q : option loc) : option bool :=
  Equal Cert_Equal h p q.

Definition bundle : Cert := mkCert "ns/cert" "5f2b1c".

Definition secrets : gmap string Cert := {[ "ns/cert" := bundle ]}.

Definition rule (kvs : list (string * string)) : gmap string string :=
  list_to_map kvs.

(** A store with three configurations: the second differs from the
    first in AuthTLSError only, the third in OCSP. *)
Definition cfg : Config Cert := mkConfig bundle "on" 1 "" false "off" "" "off" "".

Definition store : gmap positive (Config Cert) :=
  {[ 1%positive := cfg;
     2%positive := set_AuthTLSError "certificate verify failed" cfg;
     3%positive := set_OCSP "on" cfg ]}.

End mock.

(** * Properties *)

(** ** The matcher computes the words of a pattern *)

Lemma append_nil (b : string) : "" ++ b = b.
Proof. reflexivity. Qed.

Lemma append_cons (c : ascii) (a b : string) : String c a ++ b = String c (a ++ b).
Proof. reflexivity. Qed.

Lemma append_empty_r (s : string) : s ++ "" = s.
Proof.
  induction s as [|c s IH]; [reflexivity | now rewrite append_cons, IH].
Qed.

Lemma append_assoc (a b c : string) : (a ++ b) ++ c = a ++ (b ++ c).
Proof.
  induction a as [|x a IH]; [reflexivity | now rewrite !append_cons, IH].
Qed.

Lemma append_eq_empty (a b : string) : a ++ b = "" -> a = "" /\ b = "".
Proof. destruct a; [auto | rewrite append_cons; discriminate]. Qed.

Lemma nullable_matches bot r : nullable bot r = true <-> matches bot r "".
Proof.
  induction r as [| | |c|c|a IHa b IHb|a IHa b IHb|a IHa]; simpl.
  - split; [discriminate | inversion 1].
  - split; [constructor | reflexivity].
  - split; [intros ->; constructor | now inversion 1].
  - split; [discriminate | inversion 1].
  - split; [discriminate | inversion 1].
  - rewrite andb_true_iff, IHa, IHb. split.
    + intros [Ha Hb]. now apply MCatE.
    + inversion 1; subst. now split.
  - rewrite orb_true_iff, IHa, IHb. split.
    + intros [Ha | Hb]; [now apply MAltL | now apply MAltR].
    + inversion 1; subst; [now left | now right].
  - split; [constructor | reflexivity].
Qed.

(** Concatenation of words, whatever the length of the first. *)
Lemma matches_Cat_app bot a b w1 w2 :
  matches bot a w1 ->
  matches (match w1 with EmptyString => bot | _ => false end) b w2 ->
  matches bot (Cat a b) (w1 ++ w2).
Proof.
  destruct w1 as [|c w1]; rewrite ?append_nil, ?append_cons; intros Ha Hb;
    [now apply MCatE | now apply MCatS].
Qed.

Lemma matches_Star_app bot a w1 w2 :
  matches bot a w1 ->
  matches (match w1 with EmptyString => bot | _ => false end) (Star a) w2 ->
  matches bot (Star a) (w1 ++ w2).
Proof.
  destruct w1 as [|c w1]; rewrite ?append_nil, ?append_cons; intros Ha Hb;
    [assumption | now apply MStarS].
Qed.

Lemma deriv_matches bot c r w :
  matches false (deriv bot c r) w <-> matches bot r (String c w).
Proof.
  revert w.
  induction r as [| | |d|d|a IHa b IHb|a IHa b IHb|a IHa]; intros w; simpl.
  - split; inversion 1.
  - split; inversion 1.
  - split; inversion 1.
  - destruct (Ascii.eqb_spec c d) as [->|Hne]; split; intros H; inversion H; subst;
      try constructor; congruence.
  - destruct (Ascii.eqb_spec c d) as [->|Hne]; split; intros H; inversion H; subst;
      try (now constructor); congruence.
  - split; intros H.
    + inversion H as [| | | | | |? ? ? ? HL|? ? ? ? HR| |]; subst.
      * inversion HL as [| | | |? ? ? ? H1 H2|? ? ? ? ? ? H1 H2| | | |]; subst.
        -- apply IHa in H1. apply (MCatS bot a b c "" w H1 H2).
        -- apply IHa in H1. apply (MCatS bot a b c _ _ H1 H2).
      * destruct (nullable bot a) eqn:Hn; [|inversion HR].
        apply MCatE; [now apply nullable_matches | now apply IHb].
    + inversion H as [| | | |? ? ? ? H1 H2|? ? ? ? ? ? H1 H2| | | |]; subst.
      * apply MAltR. apply nullable_matches in H1. rewrite H1. now apply IHb.
      * apply MAltL. apply IHa in H1. apply matches_Cat_app; [assumption|].
        now destruct w1.
  - split; intros H; inversion H; subst;
      solve [apply MAltL; now apply IHa | apply MAltR; now apply IHb].
  - split; intros H.
    + inversion H as [| | | |? ? ? ? H1 H2|? ? ? ? ? ? H1 H2| | | |]; subst.
      * apply IHa in H1. apply (MStarS bot a c "" w H1 H2).
      * apply IHa in H1. apply (MStarS bot a c _ _ H1 H2).
    + inversion H as [| | | | | | | | |? ? ? ? ? H1 H2]; subst.
      apply IHa in H1. apply matches_Cat_app; [assumption|]. now destruct w1.
Qed.

Lemma matchHere_spec bot r s :
  matchHere bot r s = true <-> exists w rest, s = w ++ rest /\ matches bot r w.
Proof.
  revert bot r. induction s as [|c s IH]; intros bot r; simpl.
  - rewrite orb_false_r, nullable_matches. split.
    + intros H. now exists "", "".
    + intros (w & rest & Heq & H). symmetry in Heq.
      apply append_eq_empty in Heq as [-> _]. assumption.
  - rewrite orb_true_iff, nullable_matches, IH. split.
    + intros [H | (w & rest & -> & H)].
      * now exists "", (String c s).
      * exists (String c w), rest. split; [reflexivity | now apply deriv_matches].
    + intros (w & rest & Heq & H). destruct w as [|c' w]; rewrite ?append_nil, ?append_cons in Heq.
      * now left.
      * injection Heq as -> ->. right. exists w, rest.
        split; [reflexivity | now apply deriv_matches].
Qed.

Lemma matchFrom_spec bot r s :
  matchFrom bot r s = true <->
  exists pre w post, s = pre ++ w ++ post /\
    matches (match pre with EmptyString => bot | _ => false end) r w.
Proof.
  revert bot. induction s as [|c s IH]; intros bot.
  - change (matchFrom bot r "") with (matchHere bot r "" || false).
    rewrite orb_false_r, matchHere_spec. split.
    + intros (w & rest & Heq & H). now exists "", w, rest.
    + intros (pre & w & post & Heq & H). symmetry in Heq.
      apply append_eq_empty in Heq as [-> Heq]. exists w, post. now split.
  - change (matchFrom bot r (String c s))
      with (matchHere bot r (String c s) || matchFrom false r s).
    rewrite orb_true_iff, matchHere_spec, IH. split.
    + intros [(w & rest & Heq & H) | (pre & w & post & -> & H)].
      * now exists "", w, rest.
      * exists (String c pre), w, post. split; [reflexivity|]. now destruct pre.
    + intros (pre & w & post & Heq & H). destruct pre as [|c' pre]; rewrite ?append_nil, ?append_cons in Heq.
      * left. now exists w, post.
      * injection Heq as -> ->. right. exists pre, w, post.
        split; [reflexivity|]. now destruct pre.
Qed.

(** [MatchString] holds exactly when some substring is a word of the
    pattern. *)
Lemma MatchString_spec r s :
  MatchString r s = true <->
  exists pre w post, s = pre ++ w ++ post /\
    matches (match pre with EmptyString => true | _ => false end) r w.
Proof. apply matchFrom_spec. Qed.

(** ** The words of the patterns of this package *)

Lemma matches_Alt bot a b w :
  matches bot (Alt a b) w <-> matches bot a w \/ matches bot b w.
Proof.
  split.
  - inversion 1; subst; [now left | now right].
  - intros [H | H]; [now apply MAltL | now apply MAltR].
Qed.

Lemma matches_Cat bot a b w :
  matches bot (Cat a b) w <->
  exists w1 w2, w = w1 ++ w2 /\ matches bot a w1 /\
    matches (match w1 with EmptyString => bot | _ => false end) b w2.
Proof.
  split.
  - inversion 1 as [| | | |? ? ? ? H1 H2|? ? ? c w1 w2 H1 H2| | | |]; subst.
    + now exists "", w.
    + now exists (String c w1), w2.
  - intros (w1 & w2 & -> & H1 & H2). now apply matches_Cat_app.
Qed.

Lemma matches_Eps bot w : matches bot Eps w <-> w = "".
Proof. split; [now inversion 1 | intros ->; constructor]. Qed.

Lemma matches_Chr bot c w : matches bot (Chr c) w <-> w = String c "".
Proof. split; [now inversion 1 | intros ->; constructor]. Qed.

Lemma matches_BeginText bot w : matches bot BeginText w <-> bot = true /\ w = "".
Proof. split; [now inversion 1 | intros [-> ->]; constructor]. Qed.

Lemma matches_Lit bot s w : matches bot (Lit s) w <-> w = s.
Proof.
  revert bot w. induction s as [|c s IH]; intros bot w.
  - apply matches_Eps.
  - change (Lit (String c s)) with (Cat (Chr c) (Lit s)).
    rewrite matches_Cat. split.
    + intros (w1 & w2 & -> & H1 & H2).
      apply matches_Chr in H1 as ->. apply IH in H2 as ->. reflexivity.
    + intros ->. exists (String c ""), s. repeat split; [constructor | now apply IH].
Qed.

Lemma authVerifyClientRegex_words bot w :
  matches bot authVerifyClientRegex w <->
  w = "on" \/ w = "off" \/ w = "optional" \/ w = "optional_no_ca".
Proof.
  unfold authVerifyClientRegex. now rewrite !matches_Alt, !matches_Lit.
Qed.

Lemma authOCSPRegex_words bot w :
  matches bot authOCSPRegex w <-> w = "on" \/ w = "off" \/ w = "leaf".
Proof.
  unfold authOCSPRegex. now rewrite !matches_Alt, !matches_Lit.
Qed.

Lemma httpOnlyRegex_words bot w :
  matches bot httpOnlyRegex w <-> bot = true /\ (w = "http://" \/ w = "htt://").
Proof.
  unfold httpOnlyRegex, Opt. rewrite matches_Cat. split.
  - intros (w1 & w2 & -> & H1 & H2).
    apply matches_BeginText in H1 as [-> ->]. split; [reflexivity|].
    apply matches_Cat in H2 as (u1 & u2 & -> & H1 & H2).
    apply matches_Lit in H1 as ->.
    apply matches_Cat in H2 as (v1 & v2 & -> & H1 & H2).
    apply matches_Lit in H2 as ->.
    apply matches_Alt in H1 as [H1 | H1].
    + apply matches_Chr in H1 as ->. now left.
    + apply matches_Eps in H1 as ->. now right.
  - intros [-> Hw]. exists "", w. repeat split; [constructor|].
    destruct Hw as [-> | ->].
    + apply (matches_Cat_app true (Lit "htt") _ "htt" "p://"); [now apply matches_Lit|].
      apply (matches_Cat_app false _ _ "p" "://"); [|now apply matches_Lit].
      apply MAltL. constructor.
    + apply (matches_Cat_app true (Lit "htt") _ "htt" "://"); [now apply matches_Lit|].
      apply (matches_Cat_app false _ _ "" "://"); [|now apply matches_Lit].
      apply MAltR. constructor.
Qed.

Lemma prefix_spec (p s : string) :
  String.prefix p s = true <-> exists t, s = p ++ t.
Proof.
  revert s. induction p as [|c p IH]; intros s.
  - split; [intros _; now exists s | now destruct s].
  - destruct s as [|d s]; simpl.
    + split; [discriminate | intros [t Ht]; rewrite append_cons in Ht; discriminate].
    + destruct (ascii_dec c d) as [->|Hne].
      * rewrite IH. split; intros [t Ht]; exists t.
        -- now rewrite append_cons, <- Ht.
        -- rewrite append_cons in Ht. now injection Ht.
      * split; [discriminate|]. intros [t Ht]. rewrite append_cons in Ht.
        injection Ht as -> _. now elim Hne.
Qed.

(** [^http?://] accepts exactly the texts that begin with [http://] or
    with [htt://]. *)
Lemma httpOnlyRegex_MatchString (s : string) :
  MatchString httpOnlyRegex s = String.prefix "http://" s || String.prefix "htt://" s.
Proof.
  apply eq_true_iff_eq.
  rewrite MatchString_spec, orb_true_iff, !prefix_spec. split.
  - intros (pre & w & post & -> & H).
    apply httpOnlyRegex_words in H as [Hpre Hw].
    destruct pre; [|discriminate]. rewrite append_nil.
    destruct Hw as [-> | ->]; [left | right]; now exists post.
  - intros [[t ->] | [t ->]].
    + exists "", "http://", t. split; [reflexivity|].
      apply httpOnlyRegex_words. auto.
    + exists "", "htt://", t. split; [reflexivity|].
      apply httpOnlyRegex_words. auto.
Qed.

(** Texts the unanchored patterns accept: those that contain one of the
    alternatives somewhere. *)
Lemma authVerifyClientRegex_MatchString (s : string) :
  MatchString authVerifyClientRegex s = true <->
  exists pre w post, s = pre ++ w ++ post /\
    (w = "on" \/ w = "off" \/ w = "optional" \/ w = "optional_no_ca").
Proof.
  rewrite MatchString_spec. split.
  - intros (pre & w & post & -> & H). exists pre, w, post.
    split; [reflexivity | now apply authVerifyClientRegex_words in H].
  - intros (pre & w & post & -> & H). exists pre, w, post.
    split; [reflexivity | now apply authVerifyClientRegex_words].
Qed.

Lemma authOCSPRegex_MatchString (s : string) :
  MatchString authOCSPRegex s = true <->
  exists pre w post, s = pre ++ w ++ post /\ (w = "on" \/ w = "off" \/ w = "leaf").
Proof.
  rewrite MatchString_spec. split.
  - intros (pre & w & post & -> & H). exists pre, w, post.
    split; [reflexivity | now apply authOCSPRegex_words in H].
  - intros (pre & w & post & -> & H). exists pre, w, post.
    split; [reflexivity | now apply authOCSPRegex_words].
Qed.

(** ** Parse *)

Section ParseProperties.

Context {AuthSSLCertT : Type} (AuthSSLCert_zero : AuthSSLCertT) {Ingress : Type}.
Context (GetStringAnnotation : string -> Ingress -> string * option error).
Context (GetIntAnnotation : string -> Ingress -> Z * option error).
Context (GetBoolAnnotation : string -> Ingress -> bool * option error).
Context (ParseNameNS : string -> (string * string) * option error).
Context (GetAuthCertificate : string -> option AuthSSLCertT * option error).

Local Abbreviation parse :=
  (Parse AuthSSLCert_zero GetStringAnnotation GetIntAnnotation
     GetBoolAnnotation ParseNameNS GetAuthCertificate).
Local Abbreviation resolved :=
  (certificateResolved GetStringAnnotation ParseNameNS GetAuthCertificate).
Local Abbreviation verifyClient := (resolvedVerifyClient GetStringAnnotation).
Local Abbreviation validationDepth := (resolvedValidationDepth GetIntAnnotation).
Local Abbreviation errorPage := (resolvedErrorPage GetStringAnnotation).
Local Abbreviation passCert := (resolvedPassCertToUpstream GetBoolAnnotation).
Local Abbreviation ocsp := (resolvedOCSP GetStringAnnotation).
Local Abbreviation ocspResponder := (resolvedOCSPResponder GetStringAnnotation).
Local Abbreviation ocspCache := (resolvedOCSPCache GetStringAnnotation).

(** The cross-field test of [Parse], on the values the two fields hold
    when it runs. *)
Local Abbreviation ocspWithoutVerify ing :=
  (strings.EqualFold (ocsp ing) "on" && negb (strings.EqualFold (verifyClient ing) "on")).

Local Abbreviation ocspError :=
  (NewInvalidAnnotationConfiguration "auth-tls-ocsp"
     "requires auth-tls-verify-client to be set on").

Local Opaque MatchString strings.EqualFold.

(** *** The four ways through the steps on the secret reference *)

Lemma Parse_no_secret ing s e :
  GetStringAnnotation "auth-tls-secret" ing = (s, Some e) ->
  parse ing = Return (Some (Config_zero AuthSSLCert_zero)) (Some e).
Proof. intros Hs. unfold Parse. now rewrite Hs. Qed.

Lemma Parse_bad_reference ing s ns e :
  GetStringAnnotation "auth-tls-secret" ing = (s, None) ->
  ParseNameNS s = (ns, Some e) ->
  parse ing =
    Return (Some (Config_zero AuthSSLCert_zero)) (Some (NewLocationDenied (Error e))).
Proof. intros Hs Hn. unfold Parse. now rewrite Hs, Hn. Qed.

Lemma Parse_no_certificate ing s ns p e :
  GetStringAnnotation "auth-tls-secret" ing = (s, None) ->
  ParseNameNS s = (ns, None) ->
  GetAuthCertificate s = (p, Some e) ->
  parse ing =
    Return (Some (Config_zero AuthSSLCert_zero))
      (Some (LocationDenied (Wrap e "error obtaining certificate"))).
Proof. intros Hs Hn Hc. unfold Parse. now rewrite Hs, Hn, Hc. Qed.

Lemma Parse_nil_certificate ing s ns :
  GetStringAnnotation "auth-tls-secret" ing = (s, None) ->
  ParseNameNS s = (ns, None) ->
  GetAuthCertificate s = (None, None) ->
  parse ing = Panic.
Proof. intros Hs Hn Hc. unfold Parse. now rewrite Hs, Hn, Hc. Qed.

(** Once the certificate is resolved, [Parse] is the cross-field test
    followed by the assembly of the resolved fields. *)
Lemma Parse_resolved ing cert :
  resolved ing cert ->
  parse ing =
    if ocspWithoutVerify ing then Return None (Some ocspError)
    else Return
           (Some (mkConfig cert (verifyClient ing) (validationDepth ing)
                    (errorPage ing) (passCert ing) (ocsp ing)
                    (ocspResponder ing) (ocspCache ing) ""))
           None.
Proof.
  intros (s & ns & Hs & Hn & Hc).
  unfold Parse, resolvedVerifyClient, resolvedValidationDepth, resolvedErrorPage,
    resolvedPassCertToUpstream, resolvedOCSP, resolvedOCSPResponder, resolvedOCSPCache.
  rewrite Hs, Hn, Hc.
  destruct (GetStringAnnotation "auth-tls-verify-client" ing) as [vc e1].
  destruct (GetIntAnnotation "auth-tls-verify-depth" ing) as [vd e2].
  destruct (GetStringAnnotation "auth-tls-error-page" ing) as [ep e3].
  destruct (GetBoolAnnotation "auth-tls-pass-certificate-to-upstream" ing) as [pc e4].
  destruct (GetStringAnnotation "auth-tls-ocsp" ing) as [oc e5].
  destruct (GetStringAnnotation "auth-tls-ocsp-responder" ing) as [orr e6].
  destruct (GetStringAnnotation "auth-tls-ocsp-cache" ing) as [occ e7].
  cbn.
  destruct (bool_decide (e1 <> None) || negb (MatchString authVerifyClientRegex vc));
  destruct (bool_decide (e2 <> None) || (vd =? 0)%Z);
  destruct (bool_decide (e3 <> None));
  destruct (bool_decide (e4 <> None));
  destruct (bool_decide (e5 <> None) || negb (MatchString authOCSPRegex oc));
  cbn;
  match goal with |- context [if ?b then _ else _] => destruct b end; try reflexivity;
  destruct (bool_decide (e6 <> None) || negb (MatchString httpOnlyRegex orr));
  destruct (bool_decide (e7 <> None) || negb (MatchString authOCSPCacheRegex occ));
  reflexivity.
Qed.

(** A successful call went through all three steps on the secret
    reference, passed the cross-field test and returns the resolved
    fields. *)
Lemma Parse_success ing c :
  parse ing = Return (Some c) None ->
  exists cert,
    resolved ing cert /\
    ocspWithoutVerify ing = false /\
    c = mkConfig cert (verifyClient ing) (validationDepth ing) (errorPage ing)
          (passCert ing) (ocsp ing) (ocspResponder ing) (ocspCache ing) "".
Proof.
  intros H.
  destruct (GetStringAnnotation "auth-tls-secret" ing) as [s [e|]] eqn:Hs.
  { rewrite (Parse_no_secret _ _ _ Hs) in H. discriminate. }
  destruct (ParseNameNS s) as [ns [e|]] eqn:Hn.
  { rewrite (Parse_bad_reference _ _ _ _ Hs Hn) in H. discriminate. }
  destruct (GetAuthCertificate s) as [p [e|]] eqn:Hc.
  { rewrite (Parse_no_certificate _ _ _ _ _ Hs Hn Hc) in H. discriminate. }
  destruct p as [cert|].
  2:{ rewrite (Parse_nil_certificate _ _ _ Hs Hn Hc) in H. discriminate. }
  assert (Hr : resolved ing cert) by (exists s, ns; auto).
  rewrite (Parse_resolved _ _ Hr) in H.
  exists cert. destruct (ocspWithoutVerify ing); [discriminate|].
  injection H as <-. auto.
Qed.

(** *** The cross-field rule *)

(** C1 (as the code has it): on every successful result, an OCSP field
    that equals "on" up to case comes with a VerifyClient field that
    equals "on" up to case. *)
Theorem Parse_ocsp_on_implies_verify_client_on ing c :
  parse ing = Return (Some c) None ->
  strings.EqualFold (OCSP c) "on" = true ->
  strings.EqualFold (VerifyClient c) "on" = true.
Proof.
  intros H Hocsp.
  apply Parse_success in H as (cert & _ & Hx & ->). cbn in Hocsp |- *.
  rewrite Hocsp in Hx. cbn in Hx. now apply negb_false_iff in Hx.
Qed.

(** C2: with the certificate resolved, the cross-field test is made on
    the resolved values of the two fields, that is after each has been
    read and, where its read failed or its value did not pass the
    pattern, replaced by its default.  When the resolved OCSP equals "on"
    up to case and the resolved VerifyClient does not, Parse fails with
    the invalid-configuration error that names auth-tls-ocsp and the
    setting it requires; in every other case Parse succeeds and the two
    fields of the result hold those resolved values, whatever the raw
    annotation values were. *)
Theorem Parse_ocsp_on_without_verify_client_fails ing cert :
  resolved ing cert ->
  (strings.EqualFold (ocsp ing) "on" = true /\
   strings.EqualFold (verifyClient ing) "on" = false ->
   parse ing =
     Return None
       (Some (InvalidConfiguration "auth-tls-ocsp"
                "requires auth-tls-verify-client to be set on"))) /\
  (~ (strings.EqualFold (ocsp ing) "on" = true /\
      strings.EqualFold (verifyClient ing) "on" = false) ->
   exists c,
     parse ing = Return (Some c) None /\
     OCSP c = ocsp ing /\ VerifyClient c = verifyClient ing).
Proof.
  intros Hr. rewrite (Parse_resolved _ _ Hr). split.
  - intros [Hocsp Hvc]. rewrite Hocsp, Hvc. reflexivity.
  - intros Hnot.
    destruct (strings.EqualFold (ocsp ing) "on") eqn:Hocsp,
             (strings.EqualFold (verifyClient ing) "on") eqn:Hvc; cbn;
      try (eexists; split; [reflexivity | split; reflexivity]).
    exfalso. apply Hnot. split; reflexivity.
Qed.

(** *** The secret reference *)

(** C3 (as the code has it): when the read of auth-tls-secret fails, or
    the reference does not parse, or the resolver fails, Parse returns
    an error next to a zero-valued configuration: the accessor's own
    error when the read failed, an error of the location-denied kind in
    the other two cases. *)
Theorem Parse_secret_failure ing s err ns err2 p err3 :
  GetStringAnnotation "auth-tls-secret" ing = (s, err) ->
  ParseNameNS s = (ns, err2) ->
  GetAuthCertificate s = (p, err3) ->
  err <> None \/ err2 <> None \/ err3 <> None ->
  exists e,
    parse ing = Return (Some (Config_zero AuthSSLCert_zero)) (Some e) /\
    match err with
    | Some e0 => e = e0
    | None => IsLocationDenied e = true
    end.
Proof.
  intros Hs Hn Hc Hfail.
  destruct err as [e0|].
  { exists e0. split; [exact (Parse_no_secret ing s e0 Hs) | reflexivity]. }
  destruct err2 as [e2|].
  { eexists. split; [exact (Parse_bad_reference ing s ns e2 Hs Hn) | reflexivity]. }
  destruct err3 as [e3|].
  { eexists. split; [exact (Parse_no_certificate ing s ns p e3 Hs Hn Hc) | reflexivity]. }
  exfalso. destruct Hfail as [H | [H | H]]; now apply H.
Qed.

(** *** The optional fields *)

(** C4 (as the code has it): whatever auth-tls-ocsp-responder holds, a
    call whose certificate is resolved and whose cross-field test passes
    succeeds; its OCSPResponder is the annotation value when that value
    begins with http://, and is empty when the read failed or the value
    begins with neither http:// nor htt://, which covers every value
    that begins with https://. *)
Theorem Parse_OCSPResponder ing cert v err :
  resolved ing cert ->
  ocspWithoutVerify ing = false ->
  GetStringAnnotation "auth-tls-ocsp-responder" ing = (v, err) ->
  exists c,
    parse ing = Return (Some c) None /\
    (err = None -> String.prefix "http://" v = true -> OCSPResponder c = v) /\
    (err <> None \/
       (String.prefix "http://" v = false /\ String.prefix "htt://" v = false) ->
     OCSPResponder c = "").
Proof.
  intros Hr Hx Hv. rewrite (Parse_resolved _ _ Hr), Hx.
  eexists. split; [reflexivity|]. cbn.
  unfold resolvedOCSPResponder. rewrite Hv, httpOnlyRegex_MatchString. split.
  - intros -> Hp. rewrite Hp. reflexivity.
  - intros [He | [Hp1 Hp2]].
    + destruct err; [reflexivity | now elim He].
    + rewrite Hp1, Hp2. now rewrite orb_true_r.
Qed.

(** C7: on every successful result ValidationDepth is 1 when the read of
    auth-tls-verify-depth failed or gave zero, and is the integer read
    otherwise, negative ones included. *)
Theorem Parse_ValidationDepth_value ing c n err :
  parse ing = Return (Some c) None ->
  GetIntAnnotation "auth-tls-verify-depth" ing = (n, err) ->
  (err <> None \/ n = 0%Z -> ValidationDepth c = 1%Z) /\
  (err = None -> n <> 0%Z -> ValidationDepth c = n) /\
  (err = None -> (n < 0)%Z -> ValidationDepth c = n).
Proof.
  intros H Hn. apply Parse_success in H as (cert & _ & _ & ->). cbn.
  unfold resolvedValidationDepth. rewrite Hn.
  assert (Hkeep : err = None -> n <> 0%Z ->
                  (if bool_decide (err <> None) || (n =? 0)%Z
                   then defaultAuthTLSDepth else n) = n).
  { intros -> Hne. apply Z.eqb_neq in Hne. now rewrite Hne. }
  repeat split.
  - intros [He | ->].
    + destruct err; [reflexivity | now elim He].
    + now rewrite orb_true_r.
  - assumption.
  - intros He Hlt. apply Hkeep; [assumption | lia].
Qed.

(** C10: on every successful result ValidationDepth is not zero: it is
    the default 1 or the nonzero integer read from the annotation. *)
Theorem Parse_ValidationDepth_nonzero ing c :
  parse ing = Return (Some c) None ->
  ValidationDepth c <> 0%Z /\
  (ValidationDepth c = 1%Z \/
   exists n, GetIntAnnotation "auth-tls-verify-depth" ing = (n, None) /\
             n <> 0%Z /\ ValidationDepth c = n).
Proof.
  intros H. apply Parse_success in H as (cert & _ & _ & ->). cbn.
  unfold resolvedValidationDepth.
  destruct (GetIntAnnotation "auth-tls-verify-depth" ing) as [n [e|]]; cbn.
  - split; [discriminate | now left].
  - destruct (Z.eqb_spec n 0) as [->|Hne].
    + split; [discriminate | now left].
    + split; [assumption | right; now exists n].
Qed.

(** A value of the enumerated set is kept as it is. *)
Lemma Parse_VerifyClient_member ing c v :
  parse ing = Return (Some c) None ->
  GetStringAnnotation "auth-tls-verify-client" ing = (v, None) ->
  v = "on" \/ v = "off" \/ v = "optional" \/ v = "optional_no_ca" ->
  VerifyClient c = v.
Proof.
  intros H Hv Hmem. apply Parse_success in H as (cert & _ & _ & ->). cbn.
  unfold resolvedVerifyClient. rewrite Hv.
  assert (Hm : MatchString authVerifyClientRegex v = true).
  { apply authVerifyClientRegex_MatchString. exists "", v, "".
    now rewrite append_nil, append_empty_r. }
  now rewrite Hm.
Qed.

Lemma Parse_OCSP_member ing c v :
  parse ing = Return (Some c) None ->
  GetStringAnnotation "auth-tls-ocsp" ing = (v, None) ->
  v = "on" \/ v = "off" \/ v = "leaf" ->
  OCSP c = v.
Proof.
  intros H Hv Hmem. apply Parse_success in H as (cert & _ & _ & ->). cbn.
  unfold resolvedOCSP. rewrite Hv.
  assert (Hm : MatchString authOCSPRegex v = true).
  { apply authOCSPRegex_MatchString. exists "", v, "".
    now rewrite append_nil, append_empty_r. }
  now rewrite Hm.
Qed.

(** The patterns are searched for, not matched against the whole value:
    a value that merely contains one of the alternatives is kept too. *)
Lemma Parse_VerifyClient_substring ing c pre w post :
  parse ing = Return (Some c) None ->
  GetStringAnnotation "auth-tls-verify-client" ing = (pre ++ w ++ post, None) ->
  w = "on" \/ w = "off" \/ w = "optional" \/ w = "optional_no_ca" ->
  VerifyClient c = pre ++ w ++ post.
Proof.
  intros H Hv Hmem. apply Parse_success in H as (cert & _ & _ & ->). cbn.
  unfold resolvedVerifyClient. rewrite Hv.
  assert (Hm : MatchString authVerifyClientRegex (pre ++ w ++ post) = true).
  { apply authVerifyClientRegex_MatchString. now exists pre, w, post. }
  now rewrite Hm.
Qed.

Lemma Parse_OCSP_substring ing c pre w post :
  parse ing = Return (Some c) None ->
  GetStringAnnotation "auth-tls-ocsp" ing = (pre ++ w ++ post, None) ->
  w = "on" \/ w = "off" \/ w = "leaf" ->
  OCSP c = pre ++ w ++ post.
Proof.
  intros H Hv Hmem. apply Parse_success in H as (cert & _ & _ & ->). cbn.
  unfold resolvedOCSP. rewrite Hv.
  assert (Hm : MatchString authOCSPRegex (pre ++ w ++ post) = true).
  { apply authOCSPRegex_MatchString. now exists pre, w, post. }
  now rewrite Hm.
Qed.

End ParseProperties.

(** ** Equal *)

Section EqualProperties.

Context {AuthSSLCertT : Type} (AuthSSLCert_Equal : AuthSSLCertT -> AuthSSLCertT -> bool).

Local Abbreviation equal := (Equal AuthSSLCert_Equal).
Local Abbreviation agree := (fieldsEqual AuthSSLCert_Equal).

(** On two distinct addresses [Equal] is the field-wise comparison. *)
Lemma Equal_addresses (h : gmap positive (Config AuthSSLCertT)) l1 l2 c1 c2 :
  l1 <> l2 -> h !! l1 = Some c1 -> h !! l2 = Some c2 ->
  exists b, equal h (Some l1) (Some l2) = Some b /\ (b = true <-> agree c1 c2).
Proof.
  intros Hne H1 H2. unfold Equal, fieldsEqual.
  destruct (decide (Some l1 = Some l2)) as [Heq|_]; [congruence|].
  rewrite H1, H2.
  destruct (AuthSSLCert_Equal (AuthSSLCert c1) (AuthSSLCert c2)); cbn;
    [|exists false; split; [reflexivity | split; [discriminate | now intros [? _]]]].
  destruct (String.eqb_spec (VerifyClient c1) (VerifyClient c2)); cbn;
    [|exists false; split; [reflexivity | split; [discriminate | tauto]]].
  destruct (Z.eqb_spec (ValidationDepth c1) (ValidationDepth c2)); cbn;
    [|exists false; split; [reflexivity | split; [discriminate | tauto]]].
  destruct (String.eqb_spec (ErrorPage c1) (ErrorPage c2)); cbn;
    [|exists false; split; [reflexivity | split; [discriminate | tauto]]].
  destruct (Bool.eqb_spec (PassCertToUpstream c1) (PassCertToUpstream c2)); cbn;
    [|exists false; split; [reflexivity | split; [discriminate | tauto]]].
  destruct (String.eqb_spec (OCSP c1) (OCSP c2)); cbn;
    [|exists false; split; [reflexivity | split; [discriminate | tauto]]].
  destruct (String.eqb_spec (OCSPResponder c1) (OCSPResponder c2)); cbn;
    [|exists false; split; [reflexivity | split; [discriminate | tauto]]].
  destruct (String.eqb_spec (OCSPCache c1) (OCSPCache c2)); cbn;
    [|exists false; split; [reflexivity | split; [discriminate | tauto]]].
  exists true. tauto.
Qed.

Lemma Equal_same (h : gmap positive (Config AuthSSLCertT)) p : equal h p p = Some true.
Proof. unfold Equal. now destruct (decide (p = p)). Qed.

(** C9: two stored configurations that agree on the certificate bundle
    (by its own equality) and on the seven compared fields are Equal,
    whatever their AuthTLSError fields hold: Equal does not read that
    field. *)
Theorem Equal_ignores_AuthTLSError (h : gmap positive (Config AuthSSLCertT)) l1 l2 c1 c2 :
  h !! l1 = Some c1 -> h !! l2 = Some c2 ->
  agree c1 c2 ->
  equal h (Some l1) (Some l2) = Some true.
Proof.
  intros H1 H2 Hagree.
  destruct (decide (l1 = l2)) as [->|Hne]; [apply Equal_same|].
  destruct (Equal_addresses h l1 l2 c1 c2 Hne H1 H2) as (b & -> & Hb).
  f_equal. now apply Hb.
Qed.

(** The certificate bundle's own equality is reflexive and symmetric. *)
Hypothesis AuthSSLCert_Equal_refl : forall a, AuthSSLCert_Equal a a = true.
Hypothesis AuthSSLCert_Equal_sym :
  forall a b, AuthSSLCert_Equal a b = AuthSSLCert_Equal b a.

Lemma fieldsEqual_refl c : agree c c.
Proof. unfold fieldsEqual. rewrite AuthSSLCert_Equal_refl. tauto. Qed.

Lemma fieldsEqual_sym c1 c2 : agree c1 c2 -> agree c2 c1.
Proof.
  unfold fieldsEqual. rewrite (AuthSSLCert_Equal_sym (AuthSSLCert c2)).
  intros (? & ? & ? & ? & ? & ? & ? & ?). repeat split; auto.
Qed.

(** C8: over nil and the addresses of the store, Equal always returns,
    two nil pointers are Equal, nil and an address are not (either
    way round, without dereferencing), every pointer is Equal to itself,
    Equal is symmetric, and on two addresses it holds exactly when the
    configurations agree on the certificate bundle (by its own equality)
    and on VerifyClient, ValidationDepth, ErrorPage, PassCertToUpstream,
    OCSP, OCSPResponder and OCSPCache; so two copies of one
    configuration are Equal. *)
Theorem Equal_relation (h : gmap positive (Config AuthSSLCertT)) :
  (forall p q, valid h p -> valid h q -> is_Some (equal h p q)) /\
  equal h None None = Some true /\
  (forall l, equal h None (Some l) = Some false /\ equal h (Some l) None = Some false) /\
  (forall p, equal h p p = Some true) /\
  (forall p q, equal h p q = equal h q p) /\
  (forall l1 l2 c1 c2, h !! l1 = Some c1 -> h !! l2 = Some c2 ->
     (equal h (Some l1) (Some l2) = Some true <-> agree c1 c2)) /\
  (forall l1 l2 c, h !! l1 = Some c -> h !! l2 = Some c ->
     equal h (Some l1) (Some l2) = Some true).
Proof.
  assert (Hiff : forall l1 l2 c1 c2, h !! l1 = Some c1 -> h !! l2 = Some c2 ->
            (equal h (Some l1) (Some l2) = Some true <-> agree c1 c2)).
  { intros l1 l2 c1 c2 H1 H2. destruct (decide (l1 = l2)) as [->|Hne].
    - rewrite Equal_same. assert (c1 = c2) as -> by congruence.
      split; [intros _; apply fieldsEqual_refl | reflexivity].
    - destruct (Equal_addresses h l1 l2 c1 c2 Hne H1 H2) as (b & -> & Hb).
      rewrite <- Hb. split; congruence. }
  split; [|split; [|split; [|split; [|split; [|split]]]]].
  - intros [l1|] [l2|] Hp Hq; try (now eexists).
    destruct (decide (l1 = l2)) as [->|Hne]; [rewrite Equal_same; now eexists|].
    destruct Hp as [c1 H1], Hq as [c2 H2].
    destruct (Equal_addresses h l1 l2 c1 c2 Hne H1 H2) as (b & -> & _). now eexists.
  - apply Equal_same.
  - intros l. split; reflexivity.
  - intros p. apply Equal_same.
  - intros [l1|] [l2|]; try reflexivity.
    destruct (decide (l1 = l2)) as [->|Hne]; [reflexivity|].
    destruct (h !! l1) as [c1|] eqn:H1, (h !! l2) as [c2|] eqn:H2.
    + destruct (Equal_addresses h l1 l2 c1 c2 Hne H1 H2) as (b & -> & Hb).
      destruct (Equal_addresses h l2 l1 c2 c1 (not_eq_sym Hne) H2 H1) as (b' & -> & Hb').
      f_equal. apply eq_true_iff_eq. rewrite Hb, Hb'.
      split; apply fieldsEqual_sym.
    + unfold Equal. rewrite H1, H2.
      destruct (decide (Some l1 = Some l2)), (decide (Some l2 = Some l1)); congruence.
    + unfold Equal. rewrite H1, H2.
      destruct (decide (Some l1 = Some l2)), (decide (Some l2 = Some l1)); congruence.
    + unfold Equal. rewrite H1, H2.
      destruct (decide (Some l1 = Some l2)), (decide (Some l2 = Some l1)); congruence.
  - exact Hiff.
  - intros l1 l2 c H1 H2. apply (Hiff l1 l2 c c H1 H2), fieldsEqual_refl.
Qed.

End EqualProperties.

(** ** Concrete rules *)

Lemma mock_Cert_Equal_refl (a : mock.Cert) : mock.Cert_Equal a a = true.
Proof. unfold mock.Cert_Equal. now rewrite !String.eqb_refl. Qed.

Lemma mock_Cert_Equal_sym (a b : mock.Cert) : mock.Cert_Equal a b = mock.Cert_Equal b a.
Proof.
  unfold mock.Cert_Equal.
  now rewrite (String.eqb_sym (mock.Secret a)), (String.eqb_sym (mock.CASHA a)).
Qed.

(** The scenarios of the specification. *)
Example Parse_scenario_optional :
  mock.Parse mock.secrets
    (mock.rule [("auth-tls-secret", "ns/cert"); ("auth-tls-verify-client", "optional");
                ("auth-tls-ocsp", "off")])
  = Return (Some (mkConfig mock.bundle "optional" 1 "" false "off" "" "off" "")) None.
Proof. vm_compute. reflexivity. Qed.

Example Parse_scenario_ftp_responder :
  mock.Parse mock.secrets
    (mock.rule [("auth-tls-secret", "ns/cert"); ("auth-tls-ocsp-responder", "ftp://x")])
  = Return (Some (mkConfig mock.bundle "on" 1 "" false "off" "" "off" "")) None.
Proof. vm_compute. reflexivity. Qed.

(** The cross-field test reads the defaulted values: an unusable
    auth-tls-verify-client falls back to "on" and passes, an upper-case
    auth-tls-ocsp falls back to "off" and passes. *)
Example Parse_test_after_VerifyClient_default :
  mock.Parse mock.secrets
    (mock.rule [("auth-tls-secret", "ns/cert"); ("auth-tls-verify-client", "never");
                ("auth-tls-ocsp", "on")])
  = Return (Some (mkConfig mock.bundle "on" 1 "" false "on" "" "off" "")) None.
Proof. vm_compute. reflexivity. Qed.

Example Parse_test_after_OCSP_default :
  mock.Parse mock.secrets
    (mock.rule [("auth-tls-secret", "ns/cert"); ("auth-tls-verify-client", "off");
                ("auth-tls-ocsp", "ON")])
  = Return (Some (mkConfig mock.bundle "off" 1 "" false "off" "" "off" "")) None.
Proof. vm_compute. reflexivity. Qed.

(** C1, as stated, fails: OCSP "leaf" is not "off", VerifyClient "off" is
    not "on", and Parse succeeds. *)
Lemma Parse_ocsp_leaf_verify_client_off :
  exists c,
    mock.Parse mock.secrets
      (mock.rule [("auth-tls-secret", "ns/cert"); ("auth-tls-verify-client", "off");
                  ("auth-tls-ocsp", "leaf")])
    = Return (Some c) None /\
    strings.EqualFold (OCSP c) "off" = false /\
    strings.EqualFold (VerifyClient c) "on" = false.
Proof.
  exists (mkConfig mock.bundle "off" 1 "" false "leaf" "" "off" "").
  repeat split; vm_compute; reflexivity.
Qed.

Lemma Parse_ocsp_on_implies_verify_client_on_witness :
  let c := mkConfig mock.bundle "on" 1 "" false "on" "" "off" "" in
  mock.Parse mock.secrets
    (mock.rule [("auth-tls-secret", "ns/cert"); ("auth-tls-ocsp", "on")])
  = Return (Some c) None /\
  strings.EqualFold (OCSP c) "on" = true /\
  strings.EqualFold (VerifyClient c) "on" = true.
Proof.
  intros c.
  assert (Hp : mock.Parse mock.secrets
                 (mock.rule [("auth-tls-secret", "ns/cert"); ("auth-tls-ocsp", "on")])
               = Return (Some c) None) by (vm_compute; reflexivity).
  assert (Ho : strings.EqualFold (OCSP c) "on" = true) by reflexivity.
  split; [exact Hp|]. split; [exact Ho|].
  exact (Parse_ocsp_on_implies_verify_client_on mock.Cert_zero
           mock.GetStringAnnotation mock.GetIntAnnotation mock.GetBoolAnnotation
           mock.ParseNameNS (mock.GetAuthCertificate mock.secrets) _ c Hp Ho).
Defined.

Lemma Parse_ocsp_on_without_verify_client_fails_witness :
  mock.Parse mock.secrets
    (mock.rule [("auth-tls-secret", "ns/cert"); ("auth-tls-verify-client", "off");
                ("auth-tls-ocsp", "on")])
  = Return None
      (Some (InvalidConfiguration "auth-tls-ocsp"
               "requires auth-tls-verify-client to be set on")) /\
  exists c,
    mock.Parse mock.secrets
      (mock.rule [("auth-tls-secret", "ns/cert"); ("auth-tls-verify-client", "never");
                  ("auth-tls-ocsp", "on")])
    = Return (Some c) None /\
    OCSP c = "on" /\ VerifyClient c = "on".
Proof.
  split.
  - apply (Parse_ocsp_on_without_verify_client_fails mock.Cert_zero
             mock.GetStringAnnotation mock.GetIntAnnotation mock.GetBoolAnnotation
             mock.ParseNameNS (mock.GetAuthCertificate mock.secrets) _ mock.bundle).
    + exists "ns/cert", ("ns", "cert"). repeat split; vm_compute; reflexivity.
    + split; vm_compute; reflexivity.
  - apply (Parse_ocsp_on_without_verify_client_fails mock.Cert_zero
             mock.GetStringAnnotation mock.GetIntAnnotation mock.GetBoolAnnotation
             mock.ParseNameNS (mock.GetAuthCertificate mock.secrets)
             (mock.rule [("auth-tls-secret", "ns/cert");
                         ("auth-tls-verify-client", "never"); ("auth-tls-ocsp", "on")])
             mock.bundle).
    + exists "ns/cert", ("ns", "cert"). repeat split; vm_compute; reflexivity.
    + intros [_ H]. vm_compute in H. discriminate H.
Defined.

(** C3, as stated, fails: without auth-tls-secret the error Parse returns
    is the accessor's, which is not of the location-denied kind. *)
Lemma Parse_missing_secret_not_location_denied :
  mock.Parse mock.secrets (mock.rule [("auth-tls-verify-client", "on")])
  = Return (Some (Config_zero mock.Cert_zero)) (Some mock.ErrMissingAnnotations) /\
  IsLocationDenied mock.ErrMissingAnnotations = false.
Proof. split; vm_compute; reflexivity. Qed.

Lemma Parse_secret_failure_witness :
  exists e,
    mock.Parse mock.secrets (mock.rule [("auth-tls-secret", "not-a-namespaced-name")])
    = Return (Some (Config_zero mock.Cert_zero)) (Some e) /\
    IsLocationDenied e = true.
Proof.
  apply (Parse_secret_failure mock.Cert_zero
           mock.GetStringAnnotation mock.GetIntAnnotation mock.GetBoolAnnotation
           mock.ParseNameNS (mock.GetAuthCertificate mock.secrets)
           (mock.rule [("auth-tls-secret", "not-a-namespaced-name")])
           "not-a-namespaced-name" None ("", "")
           (Some (errorString
                    "invalid format (namespace/name) found in not-a-namespaced-name"))
           None
           (Some (errorString "secret not-a-namespaced-name does not exist"))).
  - vm_compute. reflexivity.
  - vm_compute. reflexivity.
  - vm_compute. reflexivity.
  - right. left. discriminate.
Defined.

(** C4, as stated, fails: a responder that begins with https:// is
    dropped. *)
Lemma Parse_https_responder_dropped :
  exists c,
    mock.Parse mock.secrets
      (mock.rule [("auth-tls-secret", "ns/cert");
                  ("auth-tls-ocsp-responder", "https://ocsp.example.com")])
    = Return (Some c) None /\
    String.prefix "https://" "https://ocsp.example.com" = true /\
    OCSPResponder c = "" /\
    OCSPResponder c <> "https://ocsp.example.com".
Proof.
  exists (mkConfig mock.bundle "on" 1 "" false "off" "" "off" "").
  repeat split; try (vm_compute; reflexivity). discriminate.
Qed.

Lemma Parse_OCSPResponder_witness :
  exists c,
    mock.Parse mock.secrets
      (mock.rule [("auth-tls-secret", "ns/cert");
                  ("auth-tls-ocsp-responder", "http://ocsp.example.com")])
    = Return (Some c) None /\
    (@None error = None -> String.prefix "http://" "http://ocsp.example.com" = true ->
     OCSPResponder c = "http://ocsp.example.com") /\
    (@None error <> None \/
       (String.prefix "http://" "http://ocsp.example.com" = false /\
        String.prefix "htt://" "http://ocsp.example.com" = false) ->
     OCSPResponder c = "").
Proof.
  apply (Parse_OCSPResponder mock.Cert_zero
           mock.GetStringAnnotation mock.GetIntAnnotation mock.GetBoolAnnotation
           mock.ParseNameNS (mock.GetAuthCertificate mock.secrets) _ mock.bundle
           "http://ocsp.example.com" None).
  - exists "ns/cert", ("ns", "cert"). repeat split; vm_compute; reflexivity.
  - vm_compute. reflexivity.
  - vm_compute. reflexivity.
Defined.

(** C5 at a value outside the enumerated set: "bonus" contains "on", the
    pattern accepts it and VerifyClient keeps it. *)
Theorem Parse_verify_client_bonus :
  mock.Parse mock.secrets
    (mock.rule [("auth-tls-secret", "ns/cert"); ("auth-tls-verify-client", "bonus")])
  = Return (Some (mkConfig mock.bundle "bonus" 1 "" false "off" "" "off" "")) None.
Proof. vm_compute. reflexivity. Qed.

(** C6 at a value outside the enumerated set: "offline" contains "off",
    the pattern accepts it and OCSP keeps it. *)
Theorem Parse_ocsp_offline :
  mock.Parse mock.secrets
    (mock.rule [("auth-tls-secret", "ns/cert"); ("auth-tls-ocsp", "offline")])
  = Return (Some (mkConfig mock.bundle "on" 1 "" false "offline" "" "off" "")) None.
Proof. vm_compute. reflexivity. Qed.

Lemma Parse_ValidationDepth_value_witness :
  let c := mkConfig mock.bundle "on" (-3) "" false "off" "" "off" "" in
  (@None error <> None \/ (-3)%Z = 0%Z -> ValidationDepth c = 1%Z) /\
  (@None error = None -> (-3)%Z <> 0%Z -> ValidationDepth c = (-3)%Z) /\
  (@None error = None -> (-3 < 0)%Z -> ValidationDepth c = (-3)%Z).
Proof.
  intros c.
  apply (Parse_ValidationDepth_value mock.Cert_zero
           mock.GetStringAnnotation mock.GetIntAnnotation mock.GetBoolAnnotation
           mock.ParseNameNS (mock.GetAuthCertificate mock.secrets)
           (mock.rule [("auth-tls-secret", "ns/cert"); ("auth-tls-verify-depth", "-3")])
           c (-3)%Z (@None error)).
  - vm_compute. reflexivity.
  - vm_compute. reflexivity.
Defined.

Lemma Parse_ValidationDepth_nonzero_witness :
  let c := mkConfig mock.bundle "on" 1 "" false "off" "" "off" "" in
  let ing := mock.rule [("auth-tls-secret", "ns/cert"); ("auth-tls-verify-depth", "0")] in
  ValidationDepth c <> 0%Z /\
  (ValidationDepth c = 1%Z \/
   exists n, mock.GetIntAnnotation "auth-tls-verify-depth" ing = (n, None) /\
             n <> 0%Z /\ ValidationDepth c = n).
Proof.
  intros c ing.
  apply (Parse_ValidationDepth_nonzero mock.Cert_zero
           mock.GetStringAnnotation mock.GetIntAnnotation mock.GetBoolAnnotation
           mock.ParseNameNS (mock.GetAuthCertificate mock.secrets) ing c).
  vm_compute. reflexivity.
Defined.

Lemma Equal_ignores_AuthTLSError_witness :
  AuthTLSError mock.cfg <> AuthTLSError (set_AuthTLSError "certificate verify failed" mock.cfg) /\
  mock.Equal mock.store (Some 1%positive) (Some 2%positive) = Some true.
Proof.
  split; [discriminate|].
  apply (Equal_ignores_AuthTLSError mock.Cert_Equal mock.store 1%positive 2%positive
           mock.cfg (set_AuthTLSError "certificate verify failed" mock.cfg)).
  - vm_compute. reflexivity.
  - vm_compute. reflexivity.
  - repeat split; vm_compute; reflexivity.
Defined.

Lemma Equal_relation_witness :
  mock.Equal mock.store None None = Some true /\
  mock.Equal mock.store None (Some 1%positive) = Some false /\
  mock.Equal mock.store (Some 3%positive) None = Some false /\
  mock.Equal mock.store (Some 1%positive) (Some 3%positive)
  = mock.Equal mock.store (Some 3%positive) (Some 1%positive) /\
  (mock.Equal mock.store (Some 1%positive) (Some 3%positive) = Some true <->
   fieldsEqual mock.Cert_Equal mock.cfg (set_OCSP "on" mock.cfg)).
Proof.
  destruct (Equal_relation mock.Cert_Equal mock_Cert_Equal_refl mock_Cert_Equal_sym
              mock.store) as (_ & Hnil & Habsent & _ & Hsym & Hiff & _).
  split; [exact Hnil|].
  split; [exact (proj1 (Habsent 1%positive))|].
  split; [exact (proj2 (Habsent 3%positive))|].
  split; [exact (Hsym (Some 1%positive) (Some 3%positive))|].
  apply Hiff; vm_compute; reflexivity.
Defined.

(** * Further properties *)

(** ** The remaining patterns and the case-folding comparison *)

Lemma matches_NotChr bot d w :
  matches bot (NotChr d) w <-> exists c, c <> d /\ w = String c "".
Proof.
  split.
  - inversion 1; subst. eauto.
  - intros (c & Hne & ->). now constructor.
Qed.

Lemma matches_Star_NotChr bot d w :
  matches bot (Star (NotChr d)) w <-> freeOf d w = true.
Proof.
  split.
  - intros H. remember (Star (NotChr d)) as r eqn:Hr.
    induction H as [| | | | | | | | |bot a c w1 w2 H1 _ H2 IH2]; try discriminate.
    + reflexivity.
    + injection Hr as ->. apply matches_NotChr in H1 as (c' & Hne & Heq).
      injection Heq as -> ->. rewrite append_nil. cbn.
      apply Ascii.eqb_neq in Hne. rewrite Hne. now apply IH2.
  - revert bot. induction w as [|c w IH]; intros bot Hfree; [constructor|].
    cbn in Hfree. apply andb_true_iff in Hfree as [Hc Hw].
    apply negb_true_iff, Ascii.eqb_neq in Hc.
    apply (MStarS bot (NotChr d) c "" w); [now constructor | now apply IH].
Qed.

Lemma matches_Plus_NotChr bot d w :
  matches bot (Plus (NotChr d)) w <-> w <> "" /\ freeOf d w = true.
Proof.
  unfold Plus. rewrite matches_Cat. split.
  - intros (w1 & w2 & -> & H1 & H2).
    apply matches_NotChr in H1 as (c & Hne & ->).
    apply matches_Star_NotChr in H2. rewrite append_cons, append_nil.
    split; [discriminate|]. cbn. apply Ascii.eqb_neq in Hne. now rewrite Hne.
  - intros [Hne Hfree]. destruct w as [|c w]; [now elim Hne|].
    cbn in Hfree. apply andb_true_iff in Hfree as [Hc Hw].
    apply negb_true_iff, Ascii.eqb_neq in Hc.
    exists (String c ""), w. repeat split.
    + now constructor.
    + now apply matches_Star_NotChr.
Qed.

Lemma matches_Lit_Cat bot s r w :
  matches bot (Cat (Lit s) r) w <->
  exists w2, w = s ++ w2 /\
    matches (match s with EmptyString => bot | _ => false end) r w2.
Proof.
  rewrite matches_Cat. split.
  - intros (w1 & w2 & -> & H1 & H2). apply matches_Lit in H1 as ->. now exists w2.
  - intros (w2 & -> & H). exists s, w2. repeat split; [now apply matches_Lit | assumption].
Qed.

Lemma authOCSPCacheRegex_words bot w :
  matches bot authOCSPCacheRegex w <-> cacheWord w.
Proof.
  unfold authOCSPCacheRegex, cacheWord.
  rewrite matches_Alt, matches_Lit, matches_Lit_Cat. split.
  - intros [-> | (w2 & -> & H)]; [now left | right].
    apply matches_Cat in H as (a & w3 & -> & Ha & H).
    apply matches_Plus_NotChr in Ha.
    assert (H' : matches false (Cat (Chr ":") (Plus (NotChr ":"))) w3)
      by (destruct a; [now elim (proj1 Ha) | exact H]).
    apply matches_Cat in H' as (w4 & b & -> & H4 & Hb).
    apply matches_Chr in H4 as ->. apply matches_Plus_NotChr in Hb.
    exists a, b. repeat split; try tauto.
  - intros [-> | (a & b & -> & Ha & Hb)]; [now left | right].
    exists (a ++ ":" ++ b). split; [reflexivity|].
    apply matches_Cat_app; [now apply matches_Plus_NotChr|].
    assert (H : matches false (Cat (Chr ":") (Plus (NotChr ":"))) (":" ++ b)).
    { apply (matches_Cat_app false (Chr ":") _ ":" b); [constructor|].
      now apply matches_Plus_NotChr. }
    destruct a; [now elim (proj1 Ha) | exact H].
Qed.

Lemma authOCSPCacheRegex_MatchString (s : string) :
  MatchString authOCSPCacheRegex s = true <->
  exists pre w post, s = pre ++ w ++ post /\ cacheWord w.
Proof.
  rewrite MatchString_spec. split.
  - intros (pre & w & post & -> & H). exists pre, w, post.
    split; [reflexivity | now apply authOCSPCacheRegex_words in H].
  - intros (pre & w & post & -> & H). exists pre, w, post.
    split; [reflexivity | now apply authOCSPCacheRegex_words].
Qed.

Lemma contains_within (w pre post s : string) :
  contains (pre ++ w ++ post) s -> contains w s.
Proof.
  intros (p & q & ->). exists (p ++ pre), (post ++ q).
  now rewrite !append_assoc.
Qed.

Lemma authVerifyClientRegex_contains (s : string) :
  MatchString authVerifyClientRegex s = true <-> contains "on" s \/ contains "off" s.
Proof.
  rewrite authVerifyClientRegex_MatchString. split.
  - intros (pre & w & post & -> & [-> | [-> | [-> | ->]]]).
    + left. now exists pre, post.
    + right. now exists pre, post.
    + left. apply (contains_within "on" "opti" "al"). now exists pre, post.
    + left. apply (contains_within "on" "opti" "al_no_ca"). now exists pre, post.
  - intros [(pre & post & ->) | (pre & post & ->)].
    + exists pre, "on", post. auto.
    + exists pre, "off", post. auto.
Qed.

Lemma authOCSPRegex_contains (s : string) :
  MatchString authOCSPRegex s = true <->
  contains "on" s \/ contains "off" s \/ contains "leaf" s.
Proof.
  rewrite authOCSPRegex_MatchString. split.
  - intros (pre & w & post & -> & [-> | [-> | ->]]).
    + left. now exists pre, post.
    + right. left. now exists pre, post.
    + right. right. now exists pre, post.
  - intros [(pre & post & ->) | [(pre & post & ->) | (pre & post & ->)]].
    + exists pre, "on", post. auto.
    + exists pre, "off", post. auto.
    + exists pre, "leaf", post. auto.
Qed.

Lemma foldByte_o (a : ascii) :
  strings.foldByte a "o" = true -> a = "o"%char \/ a = "O"%char.
Proof.
  destruct a as [[] [] [] [] [] [] [] []]; vm_compute; intros H;
    solve [discriminate H | now left | now right].
Qed.

Lemma foldByte_n (a : ascii) :
  strings.foldByte a "n" = true -> a = "n"%char \/ a = "N"%char.
Proof.
  destruct a as [[] [] [] [] [] [] [] []]; vm_compute; intros H;
    solve [discriminate H | now left | now right].
Qed.

(** Up to case, "on" has four spellings. *)
Lemma EqualFold_on (s : string) :
  strings.EqualFold s "on" = true <-> s = "on" \/ s = "On" \/ s = "oN" \/ s = "ON".
Proof.
  split.
  - destruct s as [|a [|b [|c s]]]; cbn; try discriminate.
    + now rewrite andb_false_r.
    + rewrite andb_true_r. intros H. apply andb_true_iff in H as [Ha Hb].
      apply foldByte_o in Ha as [-> | ->]; apply foldByte_n in Hb as [-> | ->]; auto.
    + rewrite !andb_false_r. discriminate.
  - intros [-> | [-> | [-> | ->]]]; reflexivity.
Qed.

(** ** Parse: outcomes and every field of the result *)

Section ParseFields.

Context {AuthSSLCertT : Type} (AuthSSLCert_zero : AuthSSLCertT) {Ingress : Type}.
Context (GetStringAnnotation : string -> Ingress -> string * option error).
Context (GetIntAnnotation : string -> Ingress -> Z * option error).
Context (GetBoolAnnotation : string -> Ingress -> bool * option error).
Context (ParseNameNS : string -> (string * string) * option error).
Context (GetAuthCertificate : string -> option AuthSSLCertT * option error).

Local Abbreviation parse :=
  (Parse AuthSSLCert_zero GetStringAnnotation GetIntAnnotation
     GetBoolAnnotation ParseNameNS GetAuthCertificate).
Local Abbreviation resolved :=
  (certificateResolved GetStringAnnotation ParseNameNS GetAuthCertificate).
Local Abbreviation verifyClient := (resolvedVerifyClient GetStringAnnotation).
Local Abbreviation ocsp := (resolvedOCSP GetStringAnnotation).
Local Abbreviation ocspCache := (resolvedOCSPCache GetStringAnnotation).

Local Abbreviation ocspError :=
  (InvalidConfiguration "auth-tls-ocsp" "requires auth-tls-verify-client to be set on").

Local Abbreviation success ing c :=
  (parse ing = Return (Some c) None).

Local Opaque MatchString strings.EqualFold.

(** Each pattern-checked field satisfies its pattern once resolved: the
    defaults are themselves accepted. *)
Lemma resolvedVerifyClient_matches ing :
  MatchString authVerifyClientRegex (verifyClient ing) = true.
Proof.
  unfold resolvedVerifyClient.
  destruct (GetStringAnnotation "auth-tls-verify-client" ing) as [v err].
  destruct (bool_decide (err <> None)); cbn; [now vm_compute|].
  destruct (MatchString authVerifyClientRegex v) eqn:Hm; cbn; [exact Hm | now vm_compute].
Qed.

Lemma resolvedOCSP_matches ing :
  MatchString authOCSPRegex (ocsp ing) = true.
Proof.
  unfold resolvedOCSP.
  destruct (GetStringAnnotation "auth-tls-ocsp" ing) as [v err].
  destruct (bool_decide (err <> None)); cbn; [now vm_compute|].
  destruct (MatchString authOCSPRegex v) eqn:Hm; cbn; [exact Hm | now vm_compute].
Qed.

Lemma resolvedOCSPCache_matches ing :
  MatchString authOCSPCacheRegex (ocspCache ing) = true.
Proof.
  unfold resolvedOCSPCache.
  destruct (GetStringAnnotation "auth-tls-ocsp-cache" ing) as [v err].
  destruct (bool_decide (err <> None)); cbn; [now vm_compute|].
  destruct (MatchString authOCSPCacheRegex v) eqn:Hm; cbn; [exact Hm | now vm_compute].
Qed.

(** On the resolved fields the comparison up to case is plain equality:
    the other spellings of "on" do not pass the case-sensitive patterns. *)
Lemma resolvedOCSP_fold_on ing :
  strings.EqualFold (ocsp ing) "on" = true <-> ocsp ing = "on".
Proof.
  rewrite EqualFold_on. split; [|now left].
  pose proof (resolvedOCSP_matches ing) as Hm.
  intros [H | [H | [H | H]]]; [exact H | | |];
    rewrite H in Hm; vm_compute in Hm; discriminate.
Qed.

Lemma resolvedVerifyClient_fold_on ing :
  strings.EqualFold (verifyClient ing) "on" = true <-> verifyClient ing = "on".
Proof.
  rewrite EqualFold_on. split; [|now left].
  pose proof (resolvedVerifyClient_matches ing) as Hm.
  intros [H | [H | [H | H]]]; [exact H | | |];
    rewrite H in Hm; vm_compute in Hm; discriminate.
Qed.

(** The secret reference of a rule goes one of five ways. *)
Lemma secret_cases ing :
  (exists s e, GetStringAnnotation "auth-tls-secret" ing = (s, Some e)) \/
  (exists s ns e, GetStringAnnotation "auth-tls-secret" ing = (s, None) /\
                  ParseNameNS s = (ns, Some e)) \/
  (exists s ns p e, GetStringAnnotation "auth-tls-secret" ing = (s, None) /\
                    ParseNameNS s = (ns, None) /\
                    GetAuthCertificate s = (p, Some e)) \/
  (exists s ns, GetStringAnnotation "auth-tls-secret" ing = (s, None) /\
                ParseNameNS s = (ns, None) /\
                GetAuthCertificate s = (None, None)) \/
  (exists cert, resolved ing cert).
Proof.
  destruct (GetStringAnnotation "auth-tls-secret" ing) as [s [e|]] eqn:Hs; [eauto|].
  destruct (ParseNameNS s) as [ns [e|]] eqn:Hn; [right; left; eauto|].
  destruct (GetAuthCertificate s) as [p [e|]] eqn:Hc; [right; right; left; eauto 7|].
  destruct p as [cert|]; right; right; right; [right | left; eauto].
  exists cert, s, ns. auto.
Qed.

(** Parse ends in one of four ways: a panic, an error next to a
    zero-valued configuration, the cross-field error next to nil, or a
    configuration and no error.  It never returns an error next to a
    configuration with fields set, nor nil without an error. *)
Theorem Parse_outcomes ing :
  parse ing = Panic \/
  (exists e, parse ing = Return (Some (Config_zero AuthSSLCert_zero)) (Some e)) \/
  parse ing = Return None (Some ocspError) \/
  (exists c, parse ing = Return (Some c) None).
Proof.
  destruct (secret_cases ing)
    as [(s & e & Hs) | [(s & ns & e & Hs & Hn) | [(s & ns & p & e & Hs & Hn & Hc)
       | [(s & ns & Hs & Hn & Hc) | (cert & Hr)]]]].
  - right. left. eexists. exact (Parse_no_secret _ _ _ _ _ _ ing s e Hs).
  - right. left. eexists. exact (Parse_bad_reference _ _ _ _ _ _ ing s ns e Hs Hn).
  - right. left. eexists. exact (Parse_no_certificate _ _ _ _ _ _ ing s ns p e Hs Hn Hc).
  - left. exact (Parse_nil_certificate _ _ _ _ _ _ ing s ns Hs Hn Hc).
  - right. right. rewrite (Parse_resolved _ _ _ _ _ _ ing cert Hr).
    match goal with |- context [if ?b then _ else _] => destruct b end;
      [left; reflexivity | right; eexists; reflexivity].
Qed.

(** Parse panics exactly when the reference is read and parsed and the
    resolver then returns a nil certificate together with a nil error. *)
Theorem Parse_panics_iff ing :
  parse ing = Panic <->
  exists s ns, GetStringAnnotation "auth-tls-secret" ing = (s, None) /\
               ParseNameNS s = (ns, None) /\
               GetAuthCertificate s = (None, None).
Proof.
  split.
  - intros H.
    destruct (secret_cases ing)
      as [(s & e & Hs) | [(s & ns & e & Hs & Hn) | [(s & ns & p & e & Hs & Hn & Hc)
         | [(s & ns & Hs & Hn & Hc) | (cert & Hr)]]]].
    + rewrite (Parse_no_secret _ _ _ _ _ _ ing s e Hs) in H. discriminate.
    + rewrite (Parse_bad_reference _ _ _ _ _ _ ing s ns e Hs Hn) in H. discriminate.
    + rewrite (Parse_no_certificate _ _ _ _ _ _ ing s ns p e Hs Hn Hc) in H. discriminate.
    + eauto.
    + rewrite (Parse_resolved _ _ _ _ _ _ ing cert Hr) in H.
      match type of H with context [if ?b then _ else _] => destruct b end; discriminate.
  - intros (s & ns & Hs & Hn & Hc).
    exact (Parse_nil_certificate _ _ _ _ _ _ ing s ns Hs Hn Hc).
Qed.

(** Parse succeeds exactly when the certificate is resolved and the
    resolved fields do not put OCSP on without VerifyClient on; no other
    annotation can make it fail. *)
Theorem Parse_succeeds_iff ing :
  (exists c, parse ing = Return (Some c) None) <->
  (exists cert,
     certificateResolved GetStringAnnotation ParseNameNS GetAuthCertificate ing cert) /\
  ~ (resolvedOCSP GetStringAnnotation ing = "on" /\
     resolvedVerifyClient GetStringAnnotation ing <> "on").
Proof.
  split.
  - intros (c & H). apply Parse_success in H as (cert & Hr & Hx & _).
    split; [eauto|]. intros [Ho Hv].
    apply resolvedOCSP_fold_on in Ho. rewrite Ho in Hx. cbn in Hx.
    apply negb_false_iff, resolvedVerifyClient_fold_on in Hx. contradiction.
  - intros [(cert & Hr) Hnot]. rewrite (Parse_resolved _ _ _ _ _ _ ing cert Hr).
    destruct (strings.EqualFold (ocsp ing) "on") eqn:Ho; cbn; [|eexists; reflexivity].
    destruct (strings.EqualFold (verifyClient ing) "on") eqn:Hv; cbn;
      [eexists; reflexivity|].
    exfalso. apply Hnot. split; [now apply resolvedOCSP_fold_on|].
    intros Heq. apply resolvedVerifyClient_fold_on in Heq. congruence.
Qed.

(** With the certificate resolved, the cross-field error is returned
    exactly when the resolved OCSP is the lower-case "on" and the resolved
    VerifyClient is anything but the lower-case "on". *)
Theorem Parse_cross_field_exact ing cert :
  certificateResolved GetStringAnnotation ParseNameNS GetAuthCertificate ing cert ->
  (parse ing = Return None (Some ocspError) <->
   resolvedOCSP GetStringAnnotation ing = "on" /\
   resolvedVerifyClient GetStringAnnotation ing <> "on").
Proof.
  intros Hr. rewrite (Parse_resolved _ _ _ _ _ _ ing cert Hr).
  rewrite <- resolvedOCSP_fold_on, <- resolvedVerifyClient_fold_on.
  destruct (strings.EqualFold (ocsp ing) "on"),
           (strings.EqualFold (verifyClient ing) "on"); cbn; split; intros H;
    try discriminate H; try reflexivity;
    try (split; [reflexivity | discriminate]);
    destruct H as [H1 H2]; try discriminate H1; now elim H2.
Qed.

(** On success the certificate bundle of the result is the one the
    resolver returned for the value of auth-tls-secret, and AuthTLSError
    is left empty. *)
Theorem Parse_AuthSSLCert_resolved ing c :
  success ing c ->
  AuthTLSError c = "" /\
  exists s ns,
    GetStringAnnotation "auth-tls-secret" ing = (s, None) /\
    ParseNameNS s = (ns, None) /\
    GetAuthCertificate s = (Some (AuthSSLCert c), None).
Proof.
  intros H. apply Parse_success in H as (cert & (s & ns & Hs & Hn & Hc) & _ & ->).
  split; [reflexivity|]. now exists s, ns.
Qed.

(** On success VerifyClient is the annotation value exactly when the read
    succeeded and the value has "on" or "off" somewhere in it, and "on"
    otherwise; so it always has "on" or "off" somewhere in it. *)
Theorem Parse_VerifyClient_value ing c v err :
  success ing c ->
  GetStringAnnotation "auth-tls-verify-client" ing = (v, err) ->
  (err = None -> contains "on" v \/ contains "off" v -> VerifyClient c = v) /\
  (err <> None \/ (~ contains "on" v /\ ~ contains "off" v) -> VerifyClient c = "on") /\
  (contains "on" (VerifyClient c) \/ contains "off" (VerifyClient c)).
Proof.
  intros H Hv. apply Parse_success in H as (cert & _ & _ & ->). cbn.
  split; [|split].
  - intros -> Hc. apply authVerifyClientRegex_contains in Hc.
    unfold resolvedVerifyClient. now rewrite Hv, Hc.
  - intros Hd. unfold resolvedVerifyClient. rewrite Hv.
    destruct Hd as [He | [H1 H2]].
    + destruct err; [reflexivity | now elim He].
    + destruct (MatchString authVerifyClientRegex v) eqn:Hm;
        [|now rewrite orb_true_r].
      apply authVerifyClientRegex_contains in Hm. tauto.
  - apply authVerifyClientRegex_contains, resolvedVerifyClient_matches.
Qed.

(** On success OCSP is the annotation value exactly when the read
    succeeded and the value has "on", "off" or "leaf" somewhere in it, and
    "off" otherwise. *)
Theorem Parse_OCSP_value ing c v err :
  success ing c ->
  GetStringAnnotation "auth-tls-ocsp" ing = (v, err) ->
  (err = None -> contains "on" v \/ contains "off" v \/ contains "leaf" v ->
   OCSP c = v) /\
  (err <> None \/ (~ contains "on" v /\ ~ contains "off" v /\ ~ contains "leaf" v) ->
   OCSP c = "off") /\
  (contains "on" (OCSP c) \/ contains "off" (OCSP c) \/ contains "leaf" (OCSP c)).
Proof.
  intros H Hv. apply Parse_success in H as (cert & _ & _ & ->). cbn.
  split; [|split].
  - intros -> Hc. apply authOCSPRegex_contains in Hc.
    unfold resolvedOCSP. now rewrite Hv, Hc.
  - intros Hd. unfold resolvedOCSP. rewrite Hv.
    destruct Hd as [He | (H1 & H2 & H3)].
    + destruct err; [reflexivity | now elim He].
    + destruct (MatchString authOCSPRegex v) eqn:Hm; [|now rewrite orb_true_r].
      apply authOCSPRegex_contains in Hm. tauto.
  - apply authOCSPRegex_contains, resolvedOCSP_matches.
Qed.

(** On success OCSPResponder is empty or is the annotation value, which
    then begins with http:// or htt://; a value that begins with htt://
    is kept; the field never begins with https://. *)
Theorem Parse_OCSPResponder_shape ing c v err :
  success ing c ->
  GetStringAnnotation "auth-tls-ocsp-responder" ing = (v, err) ->
  (OCSPResponder c = "" \/
   (OCSPResponder c = v /\ err = None /\
    (String.prefix "http://" v = true \/ String.prefix "htt://" v = true))) /\
  (err = None -> String.prefix "htt://" v = true -> OCSPResponder c = v) /\
  String.prefix "https://" (OCSPResponder c) = false.
Proof.
  intros H Hv. apply Parse_success in H as (cert & _ & _ & ->). cbn.
  unfold resolvedOCSPResponder. rewrite Hv, httpOnlyRegex_MatchString.
  destruct err as [e|]; cbn.
  { split; [now left|]. split; [discriminate | reflexivity]. }
  destruct (String.prefix "http://" v) eqn:Hp1; cbn.
  { split; [right; auto|]. split; [reflexivity|].
    apply prefix_spec in Hp1 as [t ->]. vm_compute. reflexivity. }
  destruct (String.prefix "htt://" v) eqn:Hp2; cbn.
  { split; [right; auto|]. split; [reflexivity|].
    apply prefix_spec in Hp2 as [t ->]. vm_compute. reflexivity. }
  split; [now left|]. split; [discriminate | reflexivity].
Qed.

(** On success OCSPCache is the annotation value exactly when the read
    succeeded and the value has "off" or a shared:name:size word
    somewhere in it, and "off" otherwise. *)
Theorem Parse_OCSPCache_value ing c v err :
  success ing c ->
  GetStringAnnotation "auth-tls-ocsp-cache" ing = (v, err) ->
  (err = None ->
   (exists pre w post, v = pre ++ w ++ post /\ cacheWord w) -> OCSPCache c = v) /\
  (err <> None \/ (forall pre w post, v = pre ++ w ++ post -> ~ cacheWord w) ->
   OCSPCache c = "off") /\
  (exists pre w post, OCSPCache c = pre ++ w ++ post /\ cacheWord w).
Proof.
  intros H Hv. apply Parse_success in H as (cert & _ & _ & ->). cbn.
  split; [|split].
  - intros -> Hc. apply authOCSPCacheRegex_MatchString in Hc.
    unfold resolvedOCSPCache. now rewrite Hv, Hc.
  - intros Hd. unfold resolvedOCSPCache. rewrite Hv.
    destruct Hd as [He | Hno].
    + destruct err; [reflexivity | now elim He].
    + destruct (MatchString authOCSPCacheRegex v) eqn:Hm; [|now rewrite orb_true_r].
      apply authOCSPCacheRegex_MatchString in Hm as (pre & w & post & Heq & Hw).
      now elim (Hno pre w post Heq).
  - apply authOCSPCacheRegex_MatchString, resolvedOCSPCache_matches.
Qed.

(** On success ErrorPage and PassCertToUpstream are whatever their reads
    returned, with no check on the value, and the empty string and false
    when the read failed. *)
Theorem Parse_unchecked_fields ing c page err1 pass err2 :
  success ing c ->
  GetStringAnnotation "auth-tls-error-page" ing = (page, err1) ->
  GetBoolAnnotation "auth-tls-pass-certificate-to-upstream" ing = (pass, err2) ->
  ErrorPage c = match err1 with Some _ => "" | None => page end /\
  PassCertToUpstream c = match err2 with Some _ => false | None => pass end.
Proof.
  intros H Hp Hb. apply Parse_success in H as (cert & _ & _ & ->). cbn.
  unfold resolvedErrorPage, resolvedPassCertToUpstream. rewrite Hp, Hb.
  destruct err1, err2; split; reflexivity.
Qed.

End ParseFields.

(** ** Equal as an equivalence, and on the results of Parse *)

Section EqualFurther.

Context {AuthSSLCertT : Type} (AuthSSLCert_Equal : AuthSSLCertT -> AuthSSLCertT -> bool).

Local Abbreviation equal := (Equal AuthSSLCert_Equal).
Local Abbreviation agree := (fieldsEqual AuthSSLCert_Equal).

(** The two ways [Equal] answers true: the same pointer, or two distinct
    addresses whose configurations agree field by field. *)
Lemma Equal_true_inv (h : gmap positive (Config AuthSSLCertT)) p q :
  equal h p q = Some true ->
  p = q \/
  exists l1 l2 c1 c2,
    p = Some l1 /\ q = Some l2 /\ l1 <> l2 /\
    h !! l1 = Some c1 /\ h !! l2 = Some c2 /\ agree c1 c2.
Proof.
  intros H. destruct (decide (p = q)) as [Heq|Hne]; [now left | right].
  destruct p as [l1|], q as [l2|].
  - assert (Hl : l1 <> l2) by congruence.
    destruct (h !! l1) as [c1|] eqn:H1, (h !! l2) as [c2|] eqn:H2.
    + destruct (Equal_addresses AuthSSLCert_Equal h l1 l2 c1 c2 Hl H1 H2)
        as (b & Hb & Hiff).
      rewrite Hb in H. injection H as ->.
      exists l1, l2, c1, c2.
      split; [reflexivity|]. split; [reflexivity|]. split; [exact Hl|].
      split; [exact H1|]. split; [exact H2|]. now apply Hiff.
    + unfold Equal in H. rewrite ?H1, ?H2 in H. now destruct (decide _).
    + unfold Equal in H. rewrite ?H1, ?H2 in H. now destruct (decide _).
    + unfold Equal in H. rewrite ?H1, ?H2 in H. now destruct (decide _).
  - unfold Equal in H. now destruct (decide _).
  - unfold Equal in H. now destruct (decide _).
  - now elim Hne.
Qed.

Lemma Equal_agree (h : gmap positive (Config AuthSSLCertT)) l1 l2 c1 c2 :
  l1 <> l2 -> h !! l1 = Some c1 -> h !! l2 = Some c2 -> agree c1 c2 ->
  equal h (Some l1) (Some l2) = Some true.
Proof.
  intros Hne H1 H2 Ha.
  destruct (Equal_addresses AuthSSLCert_Equal h l1 l2 c1 c2 Hne H1 H2) as (b & -> & Hb).
  f_equal. now apply Hb.
Qed.

(** Equal is transitive as soon as the certificate bundle's own equality
    is: with reflexivity and symmetry it is an equivalence on pointers. *)
Theorem Equal_trans (h : gmap positive (Config AuthSSLCertT)) p q r :
  (forall a b c, AuthSSLCert_Equal a b = true -> AuthSSLCert_Equal b c = true ->
                 AuthSSLCert_Equal a c = true) ->
  equal h p q = Some true -> equal h q r = Some true -> equal h p r = Some true.
Proof.
  intros Htrans Hpq Hqr.
  destruct (Equal_true_inv h p q Hpq)
    as [-> | (l1 & l2 & c1 & c2 & -> & -> & Hne12 & H1 & H2 & Ha12)]; [exact Hqr|].
  destruct (Equal_true_inv h (Some l2) r Hqr)
    as [<- | (l2' & l3 & c2' & c3 & Heq & -> & Hne23 & H2' & H3 & Ha23)]; [exact Hpq|].
  injection Heq as <-. assert (c2' = c2) as -> by congruence.
  destruct (decide (l1 = l3)) as [->|Hne13]; [apply Equal_same|].
  apply (Equal_agree h l1 l3 c1 c3 Hne13 H1 H3).
  destruct Ha12 as (A1 & A2 & A3 & A4 & A5 & A6 & A7 & A8).
  destruct Ha23 as (B1 & B2 & B3 & B4 & B5 & B6 & B7 & B8).
  unfold fieldsEqual. repeat split; try congruence.
  exact (Htrans _ _ _ A1 B1).
Qed.

(** With a reflexive certificate equality, Equal depends on what the two
    pointers point to and not on where: the same two configurations
    compare alike at any addresses of any store, the same address
    included. *)
Theorem Equal_by_content (h h' : gmap positive (Config AuthSSLCertT)) l1 l2 l1' l2' c1 c2 :
  (forall a, AuthSSLCert_Equal a a = true) ->
  h !! l1 = Some c1 -> h !! l2 = Some c2 ->
  h' !! l1' = Some c1 -> h' !! l2' = Some c2 ->
  equal h (Some l1) (Some l2) = equal h' (Some l1') (Some l2').
Proof.
  intros Hrefl H1 H2 H1' H2'.
  assert (Hself : forall c, agree c c).
  { intros c. unfold fieldsEqual. rewrite Hrefl. tauto. }
  assert (Hone : forall (g : gmap positive (Config AuthSSLCertT)) a b,
            g !! a = Some c1 -> g !! b = Some c2 ->
            exists x, equal g (Some a) (Some b) = Some x /\ (x = true <-> agree c1 c2)).
  { intros g a b Ha Hb. destruct (decide (a = b)) as [->|Hne].
    - exists true. rewrite Equal_same. assert (c1 = c2) as -> by congruence.
      split; [reflexivity | split; auto].
    - exact (Equal_addresses AuthSSLCert_Equal g a b c1 c2 Hne Ha Hb). }
  destruct (Hone h l1 l2 H1 H2) as (x & -> & Hx).
  destruct (Hone h' l1' l2' H1' H2') as (y & -> & Hy).
  f_equal. apply eq_true_iff_eq. now rewrite Hx, Hy.
Qed.

Context (AuthSSLCert_zero : AuthSSLCertT) {Ingress : Type}.
Context (GetStringAnnotation : string -> Ingress -> string * option error).
Context (GetIntAnnotation : string -> Ingress -> Z * option error).
Context (GetBoolAnnotation : string -> Ingress -> bool * option error).
Context (ParseNameNS : string -> (string * string) * option error).
Context (GetAuthCertificate : string -> option AuthSSLCertT * option error).

Local Abbreviation parse :=
  (Parse AuthSSLCert_zero GetStringAnnotation GetIntAnnotation
     GetBoolAnnotation ParseNameNS GetAuthCertificate).

(** On configurations returned by Parse, Equal holds exactly when the two
    bundles are equal by their own equality and every other field,
    AuthTLSError included, is the same: Parse leaves AuthTLSError empty,
    so the one field Equal skips never differs. *)
Theorem Equal_on_parsed (h : gmap positive (Config AuthSSLCertT)) ing1 ing2 l1 l2 c1 c2 :
  (forall a, AuthSSLCert_Equal a a = true) ->
  parse ing1 = Return (Some c1) None ->
  parse ing2 = Return (Some c2) None ->
  h !! l1 = Some c1 -> h !! l2 = Some c2 ->
  (equal h (Some l1) (Some l2) = Some true <->
   AuthSSLCert_Equal (AuthSSLCert c1) (AuthSSLCert c2) = true /\
   c2 = set_AuthSSLCert (AuthSSLCert c2) c1).
Proof.
  intros Hrefl P1 P2 H1 H2.
  assert (E1 : AuthTLSError c1 = "")
    by (apply Parse_success in P1 as (? & _ & _ & ->); reflexivity).
  assert (E2 : AuthTLSError c2 = "")
    by (apply Parse_success in P2 as (? & _ & _ & ->); reflexivity).
  assert (Hagree : agree c1 c2 <->
            AuthSSLCert_Equal (AuthSSLCert c1) (AuthSSLCert c2) = true /\
            c2 = set_AuthSSLCert (AuthSSLCert c2) c1).
  { unfold fieldsEqual, set_AuthSSLCert. destruct c1, c2; cbn in *. split.
    - intros (? & ? & ? & ? & ? & ? & ? & ?). split; [assumption | congruence].
    - intros [Hc Hrest]. injection Hrest as -> -> -> -> -> -> -> ->. tauto. }
  destruct (decide (l1 = l2)) as [->|Hne].
  - rewrite Equal_same. assert (c1 = c2) as -> by congruence.
    split; [intros _ | reflexivity].
    split; [apply Hrefl | now destruct c2].
  - destruct (Equal_addresses AuthSSLCert_Equal h l1 l2 c1 c2 Hne H1 H2) as (b & -> & Hb).
    rewrite <- Hagree, <- Hb. split; congruence.
Qed.

End EqualFurther.

(** ** Concrete rules for the further properties *)

Lemma mock_Cert_Equal_eq (a b : mock.Cert) : mock.Cert_Equal a b = true <-> a = b.
Proof.
  unfold mock.Cert_Equal. rewrite andb_true_iff, !String.eqb_eq.
  destruct a, b; cbn. split; [intros [-> ->]; reflexivity | intros H; now injection H].
Qed.

Lemma mock_Cert_Equal_trans (a b c : mock.Cert) :
  mock.Cert_Equal a b = true -> mock.Cert_Equal b c = true -> mock.Cert_Equal a c = true.
Proof. rewrite !mock_Cert_Equal_eq. congruence. Qed.

Lemma mock_resolved (kvs : list (string * string)) :
  mock.GetStringAnnotation "auth-tls-secret" (mock.rule kvs) = ("ns/cert", None) ->
  certificateResolved mock.GetStringAnnotation mock.ParseNameNS
    (mock.GetAuthCertificate mock.secrets) (mock.rule kvs) mock.bundle.
Proof.
  intros H. exists "ns/cert", ("ns", "cert").
  split; [exact H|]. split; vm_compute; reflexivity.
Qed.

(** A resolver that answers nil and no error makes Parse panic. *)
Lemma Parse_panics_iff_witness :
  Parse mock.Cert_zero mock.GetStringAnnotation mock.GetIntAnnotation
    mock.GetBoolAnnotation mock.ParseNameNS (fun _ => (None, None))
    (mock.rule [("auth-tls-secret", "ns/cert")])
  = Panic.
Proof.
  apply (proj2 (Parse_panics_iff mock.Cert_zero mock.GetStringAnnotation
                  mock.GetIntAnnotation mock.GetBoolAnnotation mock.ParseNameNS
                  (fun _ => (None, None)) (mock.rule [("auth-tls-secret", "ns/cert")]))).
  exists "ns/cert", ("ns", "cert"). repeat split; vm_compute; reflexivity.
Defined.

Lemma Parse_cross_field_exact_witness :
  let ing := mock.rule [("auth-tls-secret", "ns/cert"); ("auth-tls-verify-client", "optional");
                        ("auth-tls-ocsp", "on")] in
  mock.Parse mock.secrets ing
  = Return None
      (Some (InvalidConfiguration "auth-tls-ocsp"
               "requires auth-tls-verify-client to be set on")) <->
  resolvedOCSP mock.GetStringAnnotation ing = "on" /\
  resolvedVerifyClient mock.GetStringAnnotation ing <> "on".
Proof.
  intros ing.
  apply (Parse_cross_field_exact mock.Cert_zero mock.GetStringAnnotation
           mock.GetIntAnnotation mock.GetBoolAnnotation mock.ParseNameNS
           (mock.GetAuthCertificate mock.secrets) ing mock.bundle).
  apply mock_resolved. vm_compute. reflexivity.
Defined.

Lemma Parse_AuthSSLCert_resolved_witness :
  let c := mkConfig mock.bundle "on" 1 "" false "off" "" "off" "" in
  AuthTLSError c = "" /\
  exists s ns,
    mock.GetStringAnnotation "auth-tls-secret" (mock.rule [("auth-tls-secret", "ns/cert")])
    = (s, None) /\
    mock.ParseNameNS s = (ns, None) /\
    mock.GetAuthCertificate mock.secrets s = (Some (AuthSSLCert c), None).
Proof.
  intros c.
  apply (Parse_AuthSSLCert_resolved mock.Cert_zero mock.GetStringAnnotation
           mock.GetIntAnnotation mock.GetBoolAnnotation mock.ParseNameNS
           (mock.GetAuthCertificate mock.secrets)
           (mock.rule [("auth-tls-secret", "ns/cert")]) c).
  vm_compute. reflexivity.
Defined.

Lemma Parse_VerifyClient_value_witness :
  let c := mkConfig mock.bundle "optional_no_ca" 1 "" false "off" "" "off" "" in
  VerifyClient c = "optional_no_ca".
Proof.
  intros c.
  apply (Parse_VerifyClient_value mock.Cert_zero mock.GetStringAnnotation
           mock.GetIntAnnotation mock.GetBoolAnnotation mock.ParseNameNS
           (mock.GetAuthCertificate mock.secrets)
           (mock.rule [("auth-tls-secret", "ns/cert");
                       ("auth-tls-verify-client", "optional_no_ca")])
           c "optional_no_ca" None).
  - vm_compute. reflexivity.
  - vm_compute. reflexivity.
  - reflexivity.
  - left. exists "opti", "al_no_ca". reflexivity.
Defined.

Lemma Parse_OCSP_value_witness :
  let c := mkConfig mock.bundle "on" 1 "" false "off" "" "off" "" in
  OCSP c = "off".
Proof.
  intros c.
  apply (Parse_OCSP_value mock.Cert_zero mock.GetStringAnnotation
           mock.GetIntAnnotation mock.GetBoolAnnotation mock.ParseNameNS
           (mock.GetAuthCertificate mock.secrets)
           (mock.rule [("auth-tls-secret", "ns/cert")])
           c "" (Some mock.ErrMissingAnnotations)).
  - vm_compute. reflexivity.
  - vm_compute. reflexivity.
  - left. discriminate.
Defined.

Lemma Parse_OCSPResponder_shape_witness :
  let c := mkConfig mock.bundle "on" 1 "" false "off" "htt://ocsp.example.com" "off" "" in
  OCSPResponder c = "htt://ocsp.example.com" /\
  String.prefix "https://" (OCSPResponder c) = false.
Proof.
  intros c.
  destruct (Parse_OCSPResponder_shape mock.Cert_zero mock.GetStringAnnotation
              mock.GetIntAnnotation mock.GetBoolAnnotation mock.ParseNameNS
              (mock.GetAuthCertificate mock.secrets)
              (mock.rule [("auth-tls-secret", "ns/cert");
                          ("auth-tls-ocsp-responder", "htt://ocsp.example.com")])
              c "htt://ocsp.example.com" None) as (_ & Hkept & Hnot).
  - vm_compute. reflexivity.
  - vm_compute. reflexivity.
  - split; [apply Hkept; reflexivity | exact Hnot].
Defined.

Lemma Parse_OCSPCache_value_witness :
  let c := mkConfig mock.bundle "on" 1 "" false "off" "" "shared:SSL:10m" "" in
  OCSPCache c = "shared:SSL:10m".
Proof.
  intros c.
  apply (Parse_OCSPCache_value mock.Cert_zero mock.GetStringAnnotation
           mock.GetIntAnnotation mock.GetBoolAnnotation mock.ParseNameNS
           (mock.GetAuthCertificate mock.secrets)
           (mock.rule [("auth-tls-secret", "ns/cert");
                       ("auth-tls-ocsp-cache", "shared:SSL:10m")])
           c "shared:SSL:10m" None).
  - vm_compute. reflexivity.
  - vm_compute. reflexivity.
  - reflexivity.
  - exists "", "shared:SSL:10m", "". split; [reflexivity|].
    right. exists "SSL", "10m". split; [reflexivity|].
    split; split; solve [discriminate | reflexivity].
Defined.

Lemma Parse_unchecked_fields_witness :
  let c := mkConfig mock.bundle "on" 1 "not a url" false "off" "" "off" "" in
  ErrorPage c = "not a url" /\ PassCertToUpstream c = false.
Proof.
  intros c.
  apply (Parse_unchecked_fields mock.Cert_zero mock.GetStringAnnotation
           mock.GetIntAnnotation mock.GetBoolAnnotation mock.ParseNameNS
           (mock.GetAuthCertificate mock.secrets)
           (mock.rule [("auth-tls-secret", "ns/cert");
                       ("auth-tls-error-page", "not a url");
                       ("auth-tls-pass-certificate-to-upstream", "yes")])
           c "not a url" None false
           (Some (mock.ErrInvalidContent "auth-tls-pass-certificate-to-upstream"))).
  - vm_compute. reflexivity.
  - vm_compute. reflexivity.
  - vm_compute. reflexivity.
Defined.

Lemma Equal_trans_witness :
  mock.Equal mock.store (Some 2%positive) (Some 2%positive) = Some true.
Proof.
  apply (Equal_trans mock.Cert_Equal mock.store
           (Some 2%positive) (Some 1%positive) (Some 2%positive) mock_Cert_Equal_trans).
  - vm_compute. reflexivity.
  - vm_compute. reflexivity.
Defined.

Lemma Equal_by_content_witness :
  mock.Equal mock.store (Some 1%positive) (Some 3%positive)
  = mock.Equal {[ 7%positive := mock.cfg; 9%positive := set_OCSP "on" mock.cfg ]}
      (Some 7%positive) (Some 9%positive).
Proof.
  apply (Equal_by_content mock.Cert_Equal mock.store
           {[ 7%positive := mock.cfg; 9%positive := set_OCSP "on" mock.cfg ]}
           1%positive 3%positive 7%positive 9%positive
           mock.cfg (set_OCSP "on" mock.cfg) mock_Cert_Equal_refl);
    vm_compute; reflexivity.
Defined.

Lemma Equal_on_parsed_witness :
  let c := mkConfig mock.bundle "on" 1 "" false "off" "" "off" "" in
  mock.Equal {[ 1%positive := c; 2%positive := c ]} (Some 1%positive) (Some 2%positive)
  = Some true.
Proof.
  intros c.
  apply (Equal_on_parsed mock.Cert_Equal mock.Cert_zero mock.GetStringAnnotation
           mock.GetIntAnnotation mock.GetBoolAnnotation mock.ParseNameNS
           (mock.GetAuthCertificate mock.secrets)
           {[ 1%positive := c; 2%positive := c ]}
           (mock.rule [("auth-tls-secret", "ns/cert")])
           (mock.rule [("auth-tls-secret", "ns/cert"); ("auth-tls-verify-client", "never");
                       ("auth-tls-ocsp", "ON")])
           1%positive 2%positive c c mock_Cert_Equal_refl).
  - vm_compute. reflexivity.
  - vm_compute. reflexivity.
  - vm_compute. reflexivity.
  - vm_compute. reflexivity.
  - split; vm_compute; reflexivity.
Defined.
